(** * Contact-form Lambda handler: a shallow embedding of [lambda_function.py]

    The handler receives an API Gateway event, decodes the JSON form data of
    its body, renders an HTML and a plain-text e-mail and hands them to
    Amazon SES through [ses_client.send_email].  It answers with a
    dictionary holding [statusCode], optional [headers] and a JSON [body].

    Python values are modelled by the inductive type [value]; a Python [str]
    is the list of its code points.  The handler runs in a small monad that
    records the effects it performs (lines printed, calls to the provider)
    and carries Python exceptions, so that the [try]/[except] structure of
    the source is kept as it is written.

    The provider is modelled twice.  In the first model its reply is
    typed as its interface describes it, a [MessageId] or an exception.
    Module [Raw] follows the code on the reply as Python hands it over
    and shows where a reply of another shape makes the handler raise; for
    replies of the interface's shape the two models give the same run. *)

From Stdlib Require Import List Bool Arith ZArith NArith Lia String Ascii.
From Stdlib Require Import DecimalString.
Import ListNotations.

Set Implicit Arguments.
Set Warnings "-register-all".

(** ** Python strings *)

(** A Python [str]: the sequence of its Unicode code points. *)
Definition str := list N.

(** [lit "abc"] is the [str] of an ASCII literal of the source. *)
Definition lit (s : string) : str := map N_of_ascii (list_ascii_of_string s).

(** The characters the source only reaches through escapes. *)
Definition LF : N := 10.
Definition CR : N := 13.
Definition QUOTE : N := 34.
Definition BACKSLASH : N := 92.

(** [nl] is the one-character string the source writes as a line break
    inside its triple-quoted literals. *)
Definition nl : str := [LF].

(** [quoted s] is [s] between two double quotes. *)
Definition quoted (s : str) : str := QUOTE :: s ++ [QUOTE].

Fixpoint str_eqb (a b : str) : bool :=
  match a, b with
  | [], [] => true
  | x :: a', y :: b' => N.eqb x y && str_eqb a' b'
  | _, _ => false
  end.

(** [startswith p s]: Python's [s.startswith(p)]. *)
Fixpoint startswith (p s : str) : bool :=
  match p, s with
  | [], _ => true
  | x :: p', y :: s' => N.eqb x y && startswith p' s'
  | _ :: _, [] => false
  end.

(** [occurs p s]: Python's [p in s], as a proposition. *)
Definition occurs (p s : str) : Prop := exists a b, s = a ++ p ++ b.

(** [disjoint old new]: [new] shares no character with [old]. *)
Definition disjoint (old new : str) : Prop :=
  forall c, In c old -> ~ In c new.

(** [str.replace(old, new)] for a non-empty [old]: scan from the left; where
    [old] starts, emit [new] and skip the characters of [old]; elsewhere
    copy the character.  [skip] counts the characters of a match still to
    be dropped, which keeps the recursion structural. *)
Fixpoint replace_from (old new : str) (skip : nat) (s : str) : str :=
  match s with
  | [] => []
  | c :: s' =>
      match skip with
      | S k => replace_from old new k s'
      | O =>
          if startswith old s
          then new ++ replace_from old new (List.length old - 1) s'
          else c :: replace_from old new 0 s'
      end
  end.

(** [str.replace] with an empty [old] puts [new] before every character
    and at the end. *)
Fixpoint replace_empty (new s : str) : str :=
  match s with
  | [] => new
  | c :: s' => new ++ c :: replace_empty new s'
  end.

(** [str_replace old new s] is Python's [s.replace(old, new)]. *)
Definition str_replace (old new s : str) : str :=
  match old with
  | [] => replace_empty new s
  | _ :: _ => replace_from old new 0 s
  end.

(** ** Python values *)

(** The values a decoded JSON document (and so the event and the form data)
    is made of.  A [float] is kept as the numeric literal it was read from:
    the handler performs no arithmetic.  A [dict] is the list of its items
    in insertion order, with string keys. *)
Inductive value : Type :=
| VNone
| VBool (b : bool)
| VInt (n : Z)
| VFloat (literal : str)
| VStr (s : str)
| VList (items : list value)
| VDict (entries : list (str * value)).

(** [dict_get d k]: the value stored under [k], if any. *)
Fixpoint dict_get (d : list (str * value)) (k : str) : option value :=
  match d with
  | [] => None
  | (k', v) :: d' => if str_eqb k' k then Some v else dict_get d' k
  end.

(** [dict_set d k v]: [d[k] = v]; an existing key keeps its place. *)
Fixpoint dict_set (d : list (str * value)) (k : str) (v : value)
  : list (str * value) :=
  match d with
  | [] => [(k, v)]
  | (k', v') :: d' =>
      if str_eqb k' k then (k', v) :: d' else (k', v') :: dict_set d' k v
  end.

(** [d.get(k, default)]. *)
Definition get_default (d : list (str * value)) (k : str) (default : value)
  : value :=
  match dict_get d k with
  | Some v => v
  | None => default
  end.

Definition is_str (v : value) : bool :=
  match v with VStr _ => true | _ => false end.

Definition is_dict (v : value) : bool :=
  match v with VDict _ => true | _ => false end.

(** ** [json.dumps] on the dictionaries the handler builds *)

Local Open Scope N_scope.

Definition hex_digit (n : N) : N :=
  if N.ltb n 10 then 48 + n else 87 + n.

(** [uXXXX n] is the escape [\uXXXX] of a code unit, in lower-case
    hexadecimal as Python's ['\\u{0:04x}'] gives it. *)
Definition uXXXX (n : N) : str :=
  [BACKSLASH; 117;
   hex_digit (N.modulo (N.div n 4096) 16);
   hex_digit (N.modulo (N.div n 256) 16);
   hex_digit (N.modulo (N.div n 16) 16);
   hex_digit (N.modulo n 16)].

(** One character of a string under [ensure_ascii=True]: the two-character
    escapes, the character itself between space and tilde, [\uXXXX]
    otherwise, with a surrogate pair above the basic plane. *)
Definition encode_char (c : N) : str :=
  if N.eqb c QUOTE then [BACKSLASH; QUOTE]
  else if N.eqb c BACKSLASH then [BACKSLASH; BACKSLASH]
  else if N.eqb c 10 then [BACKSLASH; 110]
  else if N.eqb c 13 then [BACKSLASH; 114]
  else if N.eqb c 9 then [BACKSLASH; 116]
  else if N.eqb c 8 then [BACKSLASH; 98]
  else if N.eqb c 12 then [BACKSLASH; 102]
  else if N.leb 32 c && N.leb c 126 then [c]
  else if N.ltb c 65536 then uXXXX c
  else
    let n := c - 65536 in
    uXXXX (N.lor 55296 (N.land (N.shiftr n 10) 1023))
      ++ uXXXX (N.lor 56320 (N.land n 1023)).

Definition encode_basestring_ascii (s : str) : str :=
  quoted (flat_map encode_char s).

Local Close Scope N_scope.

(** The items of a dictionary, joined by [", "], each as ["key": "value"]. *)
Fixpoint dumps_items (items : list (str * str)) : str :=
  match items with
  | [] => []
  | [(k, v)] =>
      encode_basestring_ascii k ++ lit ": " ++ encode_basestring_ascii v
  | (k, v) :: rest =>
      encode_basestring_ascii k ++ lit ": " ++ encode_basestring_ascii v
        ++ lit ", " ++ dumps_items rest
  end.

(** [json.dumps] of a dictionary whose keys and values are strings, with
    the default separators and [ensure_ascii]. *)
Definition json_dumps (items : list (str * str)) : str :=
  lit "{" ++ dumps_items items ++ lit "}".

(** ** Effects and exceptions *)

(** The exceptions the handler can meet.  [ClientError] is botocore's
    service-level error and carries [e.response['Error']['Message']]; every
    other constructor is a subclass of [Exception] that is not a
    [ClientError]. *)
Inductive exn : Type :=
| ClientError (message : str)
| AttributeError
| TypeError
| KeyError
| JSONDecodeError
| BotoCoreError.

(** The keyword arguments of [ses_client.send_email].  [ReplyToAddresses]
    holds the [email] field as it was extracted, whatever its type. *)
Record send_request : Type := {
  ToAddresses : list str;
  Html_Charset : str;
  Html_Data : str;
  Text_Charset : str;
  Text_Data : str;
  Subject_Charset : str;
  Subject_Data : str;
  Source : str;
  ReplyToAddresses : list value
}.

(** What an invocation does besides returning: the lines it prints and the
    calls it makes to the provider, in order.  The line of the general
    handler is [f"General Lambda Error: {e}"]; it is recorded with the
    exception itself. *)
Inductive effect : Type :=
| Print (line : str)
| PrintGeneralError (e : exn)
| SendEmail (request : send_request).

(** A computation either raises or returns, and leaves a trace. *)
Definition M (A : Type) : Type := (exn + A) * list effect.

Definition ret {A} (a : A) : M A := (inr a, []).

Definition raise {A} (e : exn) : M A := (inl e, []).

Definition bind {A B} (m : M A) (f : A -> M B) : M B :=
  match m with
  | (inl e, t) => (inl e, t)
  | (inr a, t) => let (r, t') := f a in (r, t ++ t')
  end.

Definition emit (x : effect) : M unit := (inr tt, [x]).

(** [try: m  except Exception as e: h e]. *)
Definition try_except {A} (m : M A) (h : exn -> M A) : M A :=
  match m with
  | (inl e, t) => let (r, t') := h e in (r, t ++ t')
  | (inr a, t) => (inr a, t)
  end.

Declare Scope py_scope.
Delimit Scope py_scope with py.
Notation "x <- m ;; k" := (bind m (fun x => k))
  (at level 61, m at next level, right associativity) : py_scope.
Notation "m ;; k" := (bind m (fun _ => k))
  (at level 61, right associativity) : py_scope.
Local Open Scope py_scope.

Definition outcome {A} (m : M A) : exn + A := fst m.
Definition trace {A} (m : M A) : list effect := snd m.

(** The requests handed to the provider during a run, in order. *)
Fixpoint provider_calls (t : list effect) : list send_request :=
  match t with
  | [] => []
  | SendEmail r :: t' => r :: provider_calls t'
  | _ :: t' => provider_calls t'
  end.

(** ** The response handed back to API Gateway *)

(** The dictionary the handler returns; [headers] is [None] when the
    dictionary has no ['headers'] key. *)
Record http_response : Type := {
  statusCode : Z;
  headers : option (list (str * str));
  body : str
}.

(** How the [try] statement is left without an exception: by one of its
    [return]s, or by falling through with [response] bound. *)
Inductive completion : Type :=
| Return (r : http_response)
| Fallthrough (MessageId : str).

(** ** Configuration *)

(** The module constants the handler reads.  [AWS_REGION] only selects the
    endpoint of [ses_client]; it belongs to the provider of the runtime
    below. *)
Definition SENDER_EMAIL : str := lit "no-reply@yourdomain.com".
Definition RECIPIENT_EMAIL : str := lit "your-inbox@yourdomain.com".

(** What the handler takes from outside the repository: the platform's
    [os.linesep], Python's formatting of a value that is not a [str] inside
    an f-string, the decoder [json.loads] ([None] when it raises) and the
    provider behind [ses_client.send_email], which answers with a
    [MessageId] or raises. *)
Record runtime : Type := {
  os_linesep : str;
  py_format : value -> str;
  json_loads : str -> option value;
  send_email : send_request -> exn + str
}.

(** ** The handler *)

(** The lines of a triple-quoted literal, joined by line breaks. *)
Fixpoint join_lines (ls : list str) : str :=
  match ls with
  | [] => []
  | [l] => l
  | l :: ls' => l ++ nl ++ join_lines ls'
  end.

Definition cors_headers : list (str * str) :=
  [(lit "Access-Control-Allow-Origin", lit "*");
   (lit "Content-Type", lit "application/json")].

(** [{name}] inside an f-string: a [str] is inserted as it is, any other
    value through Python's formatting. *)
Definition fmt (R : runtime) (v : value) : str :=
  match v with
  | VStr s => s
  | _ => py_format R v
  end.

(** [v.get(k, default)]: defined on dictionaries only. *)
Definition py_get (v : value) (k : str) (default : value) : M value :=
  match v with
  | VDict d => ret (get_default d k default)
  | _ => raise AttributeError
  end.

(** [v[k]]. *)
Definition py_getitem (v : value) (k : str) : M value :=
  match v with
  | VDict d =>
      match dict_get d k with
      | Some x => ret x
      | None => raise KeyError
      end
  | _ => raise TypeError
  end.

(** [json.loads(v)]: [v] has to be a [str], and has to decode. *)
Definition py_json_loads (R : runtime) (v : value) : M value :=
  match v with
  | VStr s =>
      match json_loads R s with
      | Some x => ret x
      | None => raise JSONDecodeError
      end
  | _ => raise TypeError
  end.

(** [message.replace(os.linesep, '<br>')]: only a [str] has [replace]. *)
Definition py_replace_linesep (R : runtime) (message : value) : M str :=
  match message with
  | VStr m => ret (str_replace (os_linesep R) (lit "<br>") m)
  | _ => raise AttributeError
  end.

(** The f-string [HTML_BODY], given the replaced message. *)
Definition HTML_BODY (name email subject replaced : str) : str :=
  join_lines
    [ [];
      lit "        <html>";
      lit "        <head></head>";
      lit "        <body>";
      lit "            <p>You have received a new contact form submission:</p>";
      lit "            <ul>";
      lit "                <li><strong>Name:</strong> " ++ name ++ lit "</li>";
      lit "                <li><strong>Email:</strong> " ++ email ++ lit "</li>";
      lit "            </ul>";
      lit "            <p><strong>Subject:</strong> " ++ subject ++ lit "</p>";
      lit "            <h3>Message:</h3>";
      lit "            <p>" ++ replaced ++ lit "</p>";
      lit "        </body>";
      lit "        </html>";
      lit "        " ].

(** The f-string [TEXT_BODY]. *)
Definition TEXT_BODY (name email subject message : str) : str :=
  join_lines
    [ [];
      lit "        New Contact Form Submission:";
      lit "        Name: " ++ name;
      lit "        Email: " ++ email;
      lit "        Subject: " ++ subject;
      lit "        Message:";
      lit "        " ++ message;
      lit "        " ].

(** The call [ses_client.send_email(...)]: it is recorded, and the
    provider's answer decides between a [MessageId] and an exception. *)
Definition ses_send_email (R : runtime) (req : send_request) : M str :=
  emit (SendEmail req) ;;
  match send_email R req with
  | inr message_id => ret message_id
  | inl e => raise e
  end.

Definition no_body_response : http_response :=
  {| statusCode := 400;
     headers := None;
     body := json_dumps [(lit "error", lit "No form data submitted.")] |}.

Definition send_failed_response : http_response :=
  {| statusCode := 500;
     headers := Some cors_headers;
     body :=
       json_dumps [(lit "error", lit "Failed to send email. Check Lambda logs.")] |}.

Definition internal_error_response : http_response :=
  {| statusCode := 500;
     headers := Some cors_headers;
     body := json_dumps [(lit "error", lit "Internal server error.")] |}.

Definition success_response (message_id : str) : http_response :=
  {| statusCode := 200;
     headers := Some cors_headers;
     body :=
       json_dumps [(lit "message", lit "Email sent successfully!");
                   (lit "message_id", message_id)] |}.

(** The request built from the four extracted fields. *)
Definition build_request (R : runtime) (name email subject : value)
    (replaced : str) (message : value) : send_request :=
  {| ToAddresses := [RECIPIENT_EMAIL];
     Html_Charset := lit "UTF-8";
     Html_Data := HTML_BODY (fmt R name) (fmt R email) (fmt R subject) replaced;
     Text_Charset := lit "UTF-8";
     Text_Data :=
       TEXT_BODY (fmt R name) (fmt R email) (fmt R subject) (fmt R message);
     Subject_Charset := lit "UTF-8";
     Subject_Data := lit "New Contact: " ++ fmt R subject;
     Source := SENDER_EMAIL;
     ReplyToAddresses := [email] |}.

(** [form_data.get(k, 'N/A')] on a decoded object. *)
Definition form_field (form : list (str * value)) (k : str) : value :=
  get_default form k (VStr (lit "N/A")).

(** The steps of the [try] statement after the form data is decoded:
    extract the four fields, build the two bodies, call the provider. *)
Definition process_form (R : runtime) (form_data : value) : M completion :=
  name <- py_get form_data (lit "name") (VStr (lit "N/A")) ;;
  email <- py_get form_data (lit "email") (VStr (lit "N/A")) ;;
  subject <- py_get form_data (lit "subject") (VStr (lit "N/A")) ;;
  message <- py_get form_data (lit "message") (VStr (lit "N/A")) ;;
  replaced <- py_replace_linesep R message ;;
  response <-
    ses_send_email R (build_request R name email subject replaced message) ;;
  ret (Fallthrough response).

(** The body of the [try] statement. *)
Definition try_block (R : runtime) (event : value) : M completion :=
  b <- py_get event (lit "body") VNone ;;
  match b with
  | VNone =>
      emit (Print (lit "No body found in the event.")) ;;
      ret (Return no_body_response)
  | _ =>
      raw <- py_getitem event (lit "body") ;;
      form_data <- py_json_loads R raw ;;
      process_form R form_data
  end.

(** The two [except] clauses, in the order of the source. *)
Definition except_clauses (e : exn) : M completion :=
  match e with
  | ClientError message =>
      emit (Print (lit "SES Send Email Error: " ++ message)) ;;
      ret (Return send_failed_response)
  | _ =>
      emit (PrintGeneralError e) ;;
      ret (Return internal_error_response)
  end.

(** [lambda_handler(event, context)]; [context] is not used. *)
Definition lambda_handler (R : runtime) (event : value) : M http_response :=
  c <- try_except (try_block R event) except_clauses ;;
  match c with
  | Return r => ret r
  | Fallthrough message_id => ret (success_response message_id)
  end.

(** ** A decoder for JSON texts

    [json_decode] follows the scanner of Python's [json] module: the JSON
    grammar, the constants [NaN], [Infinity] and [-Infinity], strict
    strings, duplicate keys resolved by the last one.  It is the decoder
    the concrete scenarios run with. *)
Module Decoder.

Local Open Scope N_scope.
Local Open Scope char_scope.

(** The code point of an ASCII character. *)
Definition ch (a : ascii) : N := N_of_ascii a.

Definition is_ws (c : N) : bool :=
  N.eqb c (ch " ") || N.eqb c 9 || N.eqb c 10 || N.eqb c 13.

Fixpoint skip_ws (s : str) : str :=
  match s with
  | c :: s' => if is_ws c then skip_ws s' else s
  | [] => []
  end.

(** [expect c s]: the rest of [s] after its first character [c]. *)
Definition expect (c : N) (s : str) : option str :=
  match s with
  | x :: s' => if N.eqb x c then Some s' else None
  | [] => None
  end.

Definition is_digit (c : N) : bool := N.leb (ch "0") c && N.leb c (ch "9").

(** The longest prefix of digits, and the rest. *)
Fixpoint span_digits (s : str) : str * str :=
  match s with
  | c :: s' =>
      if is_digit c
      then let (d, r) := span_digits s' in (c :: d, r)
      else ([], s)
  | [] => ([], [])
  end.

Definition digits_value (d : str) : Z :=
  fold_left (fun acc c => (10 * acc + Z.of_N (c - ch "0"))%Z) d 0%Z.

Definition hex_value (c : N) : option N :=
  if is_digit c then Some (c - ch "0")
  else if N.leb (ch "a") c && N.leb c (ch "f") then Some (c - ch "a" + 10)
  else if N.leb (ch "A") c && N.leb c (ch "F") then Some (c - ch "A" + 10)
  else None.

(** The four hexadecimal digits of a [\uXXXX] escape. *)
Definition hex4 (s : str) : option (N * str) :=
  match s with
  | a :: b :: c :: d :: r =>
      match hex_value a, hex_value b, hex_value c, hex_value d with
      | Some x, Some y, Some z, Some w =>
          Some (((x * 16 + y) * 16 + z) * 16 + w, r)
      | _, _, _, _ => None
      end
  | _ => None
  end.

(** The character a two-character escape stands for. *)
Definition backslash (e : N) : option N :=
  if N.eqb e QUOTE then Some QUOTE
  else if N.eqb e BACKSLASH then Some BACKSLASH
  else if N.eqb e (ch "/") then Some (ch "/")
  else if N.eqb e (ch "b") then Some 8
  else if N.eqb e (ch "f") then Some 12
  else if N.eqb e (ch "n") then Some 10
  else if N.eqb e (ch "r") then Some 13
  else if N.eqb e (ch "t") then Some 9
  else None.

Definition high_surrogate (u : N) : bool := N.leb 55296 u && N.leb u 56319.
Definition low_surrogate (u : N) : bool := N.leb 56320 u && N.leb u 57343.

(** [scanstring]: the characters up to the closing quote, escapes decoded;
    [acc] holds what was read, last character first. *)
Fixpoint scanstring (fuel : nat) (acc : str) (s : str) : option (str * str) :=
  match fuel with
  | O => None
  | S f =>
      match s with
      | [] => None
      | c :: s' =>
          if N.eqb c QUOTE then Some (rev acc, s')
          else if N.eqb c BACKSLASH then
            match s' with
            | [] => None
            | e :: s'' =>
                if N.eqb e (ch "u") then
                  match hex4 s'' with
                  | None => None
                  | Some (u, r) =>
                      if high_surrogate u then
                        match r with
                        | b :: x :: r2 =>
                            if N.eqb b BACKSLASH && N.eqb x (ch "u") then
                              match hex4 r2 with
                              | None => None
                              | Some (u2, r3) =>
                                  if low_surrogate u2
                                  then scanstring f
                                         (65536 + N.lor (N.shiftl (u - 55296) 10)
                                                    (u2 - 56320) :: acc) r3
                                  else scanstring f (u :: acc) r
                              end
                            else scanstring f (u :: acc) r
                        | _ => scanstring f (u :: acc) r
                        end
                      else scanstring f (u :: acc) r
                  end
                else
                  match backslash e with
                  | Some x => scanstring f (x :: acc) s''
                  | None => None
                  end
            end
          else if N.ltb c 32 then None
          else scanstring f (c :: acc) s'
      end
  end.

(** The optional fraction of a number: a dot and at least one digit. *)
Definition scan_frac (s : str) : str * str :=
  match s with
  | c :: s' =>
      if N.eqb c (ch ".") then
        match span_digits s' with
        | ([], _) => ([], s)
        | (d, r) => (c :: d, r)
        end
      else ([], s)
  | [] => ([], [])
  end.

(** The optional exponent: [e] or [E], an optional sign, at least one
    digit. *)
Definition scan_exp (s : str) : str * str :=
  match s with
  | c :: s' =>
      if N.eqb c (ch "e") || N.eqb c (ch "E") then
        match s' with
        | g :: s'' =>
            if N.eqb g (ch "+") || N.eqb g (ch "-") then
              match span_digits s'' with
              | ([], _) => ([], s)
              | (d, r) => (c :: g :: d, r)
              end
            else
              match span_digits s' with
              | ([], _) => ([], s)
              | (d, r) => (c :: d, r)
              end
        | [] => ([], s)
        end
      else ([], s)
  | [] => ([], [])
  end.

(** The integer part: an optional minus, then [0] or a digit from 1 to 9
    followed by digits. *)
Definition scan_integer (s : str) : option (str * str) :=
  let (sign, s1) :=
    match s with
    | c :: s' => if N.eqb c (ch "-") then ([c], s') else ([], s)
    | [] => ([], s)
    end in
  match s1 with
  | c :: s' =>
      if N.eqb c (ch "0") then Some (sign ++ [c], s')
      else if is_digit c then
        let (d, r) := span_digits s' in Some (sign ++ c :: d, r)
      else None
  | [] => None
  end.

Definition integer_value (i : str) : Z :=
  match i with
  | c :: d => if N.eqb c (ch "-") then (- digits_value d)%Z else digits_value i
  | [] => 0%Z
  end.

(** A number: an [int] when it has neither fraction nor exponent, a
    [float] otherwise. *)
Definition scan_number (s : str) : option (value * str) :=
  match scan_integer s with
  | None => None
  | Some (i, s1) =>
      let (fr, s2) := scan_frac s1 in
      let (ex, s3) := scan_exp s2 in
      match fr, ex with
      | [], [] => Some (VInt (integer_value i), s3)
      | _, _ => Some (VFloat (i ++ fr ++ ex), s3)
      end
  end.

(** [drop_prefix p s]: the rest of [s] after its prefix [p]. *)
Definition drop_prefix (p s : str) : option str :=
  if startswith p s then Some (skipn (List.length p) s) else None.

(** The values that are neither strings nor containers, tried in the
    order of the scanner. *)
Definition scan_atom (s : str) : option (value * str) :=
  match drop_prefix (lit "null") s with
  | Some r => Some (VNone, r)
  | None =>
  match drop_prefix (lit "true") s with
  | Some r => Some (VBool true, r)
  | None =>
  match drop_prefix (lit "false") s with
  | Some r => Some (VBool false, r)
  | None =>
  match scan_number s with
  | Some x => Some x
  | None =>
  match drop_prefix (lit "NaN") s with
  | Some r => Some (VFloat (lit "NaN"), r)
  | None =>
  match drop_prefix (lit "Infinity") s with
  | Some r => Some (VFloat (lit "Infinity"), r)
  | None =>
  match drop_prefix (lit "-Infinity") s with
  | Some r => Some (VFloat (lit "-Infinity"), r)
  | None => None
  end end end end end end end.

(** [scan_once] with the object and array loops.  [scan_items] starts at
    the opening quote of a key, [scan_elements] at a value; both carry
    what was read so far. *)
Fixpoint scan_once (fuel : nat) (s : str) : option (value * str) :=
  match fuel with
  | O => None
  | S f =>
      match s with
      | [] => None
      | c :: s' =>
          if N.eqb c QUOTE then
            match scanstring (List.length s') [] s' with
            | Some (x, r) => Some (VStr x, r)
            | None => None
            end
          else if N.eqb c (ch "{") then
            match expect (ch "}") (skip_ws s') with
            | Some r => Some (VDict [], r)
            | None => scan_items f [] (skip_ws s')
            end
          else if N.eqb c (ch "[") then
            match expect (ch "]") (skip_ws s') with
            | Some r => Some (VList [], r)
            | None => scan_elements f [] (skip_ws s')
            end
          else scan_atom s
      end
  end
with scan_items (fuel : nat) (acc : list (str * value)) (s : str)
  : option (value * str) :=
  match fuel with
  | O => None
  | S f =>
      match expect QUOTE s with
      | None => None
      | Some s1 =>
          match scanstring (List.length s1) [] s1 with
          | None => None
          | Some (k, s2) =>
              match expect (ch ":") (skip_ws s2) with
              | None => None
              | Some s3 =>
                  match scan_once f (skip_ws s3) with
                  | None => None
                  | Some (v, s4) =>
                      let s5 := skip_ws s4 in
                      match expect (ch "}") s5 with
                      | Some r => Some (VDict (dict_set acc k v), r)
                      | None =>
                          match expect (ch ",") s5 with
                          | Some s6 =>
                              scan_items f (dict_set acc k v) (skip_ws s6)
                          | None => None
                          end
                      end
                  end
              end
          end
      end
  end
with scan_elements (fuel : nat) (acc : list value) (s : str)
  : option (value * str) :=
  match fuel with
  | O => None
  | S f =>
      match scan_once f s with
      | None => None
      | Some (v, s1) =>
          let s2 := skip_ws s1 in
          match expect (ch "]") s2 with
          | Some r => Some (VList (rev (v :: acc)), r)
          | None =>
              match expect (ch ",") s2 with
              | Some s3 => scan_elements f (v :: acc) (skip_ws s3)
              | None => None
              end
          end
      end
  end.

(** [json.loads(s)] for a [str]: no byte-order mark, one value between
    optional white space, nothing after it. *)
Definition json_decode (s : str) : option value :=
  if startswith [65279] s then None
  else
    match scan_once (2 * List.length s + 2) (skip_ws s) with
    | Some (v, r) =>
        match skip_ws r with
        | [] => Some v
        | _ :: _ => None
        end
    | None => None
    end.

End Decoder.

(** ** The handler on the replies of the provider as they come

    [send_email] above gives the reply of the provider as its interface
    describes it: a [MessageId], or a [ClientError] with its message.  The
    code reads both out of dictionaries, the first after the [try]
    statement and the second inside an [except] clause.  This module
    follows the code on the reply as Python hands it over: the dictionary
    [send_email] returns, and the [response] attribute of the
    [ClientError] it raises. *)
Module Raw.

(** An exception as the [except] clauses see it: a [ClientError] with its
    [response], or any other exception. *)
Inductive exception : Type :=
| ClientErrorWith (response : value)
| Other (e : exn).

(** The [response] of a [ClientError] that holds the given message. *)
Definition error_response (message : str) : value :=
  VDict [(lit "Error", VDict [(lit "Message", VStr message)])].

Definition of_exn (e : exn) : exception :=
  match e with
  | ClientError message => ClientErrorWith (error_response message)
  | _ => Other e
  end.

(** The provider behind [ses_client.send_email]: it returns a value or
    raises. *)
Definition provider : Type := send_request -> exception + value.

(** Computations whose exceptions are these. *)
Definition P (A : Type) : Type := (exception + A) * list effect.

Definition ret {A} (a : A) : P A := (inr a, []).

Definition raise {A} (e : exception) : P A := (inl e, []).

Definition bind {A B} (m : P A) (f : A -> P B) : P B :=
  match m with
  | (inl e, t) => (inl e, t)
  | (inr a, t) => let (r, t') := f a in (r, t ++ t')
  end.

Definition emit (x : effect) : P unit := (inr tt, [x]).

(** A step that does not involve the provider. *)
Definition lift {A} (m : M A) : P A :=
  match m with
  | (inl e, t) => (inl (of_exn e), t)
  | (inr a, t) => (inr a, t)
  end.

Definition try_except {A} (m : P A) (h : exception -> P A) : P A :=
  match m with
  | (inl e, t) => let (r, t') := h e in (r, t ++ t')
  | (inr a, t) => (inr a, t)
  end.

Declare Scope raw_scope.
Delimit Scope raw_scope with raw.
Notation "x <- m ;; k" := (bind m (fun x => k))
  (at level 61, m at next level, right associativity) : raw_scope.
Notation "m ;; k" := (bind m (fun _ => k))
  (at level 61, right associativity) : raw_scope.
Local Open Scope raw_scope.

(** How the [try] statement is left without an exception; falling through
    binds [response] to what the provider returned. *)
Inductive completion : Type :=
| Return (r : http_response)
| Fallthrough (response : value).

(** [json.dumps] on a value, with the default separators and
    [ensure_ascii].  A number is written as [repr] writes it, which for a
    float is also what formatting gives. *)
Fixpoint json_dumps_value (R : runtime) (v : value) {struct v} : str :=
  match v with
  | VNone => lit "null"
  | VBool true => lit "true"
  | VBool false => lit "false"
  | VInt n => lit (DecimalString.NilZero.string_of_int (Z.to_int n))
  | VFloat literal => py_format R (VFloat literal)
  | VStr s => encode_basestring_ascii s
  | VList items =>
      lit "["
        ++ (fix elements (l : list value) : str :=
              match l with
              | [] => []
              | [x] => json_dumps_value R x
              | x :: l' => json_dumps_value R x ++ lit ", " ++ elements l'
              end) items
        ++ lit "]"
  | VDict entries =>
      lit "{"
        ++ (fix members (l : list (str * value)) : str :=
              match l with
              | [] => []
              | [(k, x)] =>
                  encode_basestring_ascii k ++ lit ": " ++ json_dumps_value R x
              | (k, x) :: l' =>
                  encode_basestring_ascii k ++ lit ": " ++ json_dumps_value R x
                    ++ lit ", " ++ members l'
              end) entries
        ++ lit "}"
  end.

Definition ses_send_email (ses : provider) (req : send_request) : P value :=
  emit (SendEmail req) ;;
  match ses req with
  | inr response => ret response
  | inl e => raise e
  end.

(** The steps of the [try] statement after the form data is decoded. *)
Definition process_form (R : runtime) (ses : provider) (form_data : value)
  : P completion :=
  name <- lift (py_get form_data (lit "name") (VStr (lit "N/A"))) ;;
  email <- lift (py_get form_data (lit "email") (VStr (lit "N/A"))) ;;
  subject <- lift (py_get form_data (lit "subject") (VStr (lit "N/A"))) ;;
  message <- lift (py_get form_data (lit "message") (VStr (lit "N/A"))) ;;
  replaced <- lift (py_replace_linesep R message) ;;
  response <-
    ses_send_email ses (build_request R name email subject replaced message) ;;
  ret (Fallthrough response).

(** The body of the [try] statement. *)
Definition try_block (R : runtime) (ses : provider) (event : value)
  : P completion :=
  b <- lift (py_get event (lit "body") VNone) ;;
  match b with
  | VNone =>
      emit (Print (lit "No body found in the event.")) ;;
      ret (Return no_body_response)
  | _ =>
      raw <- lift (py_getitem event (lit "body")) ;;
      form_data <- lift (py_json_loads R raw) ;;
      process_form R ses form_data
  end.

(** The clause [except ClientError as e]: the message is looked up in
    [e.response] while the line to print is built. *)
Definition client_error_clause (R : runtime) (response : value)
  : P completion :=
  error <- lift (py_getitem response (lit "Error")) ;;
  message <- lift (py_getitem error (lit "Message")) ;;
  emit (Print (lit "SES Send Email Error: " ++ fmt R message)) ;;
  ret (Return send_failed_response).

(** The two [except] clauses, in the order of the source. *)
Definition except_clauses (R : runtime) (e : exception) : P completion :=
  match e with
  | ClientErrorWith response => client_error_clause R response
  | Other (ClientError message) =>
      client_error_clause R (error_response message)
  | Other e' =>
      emit (PrintGeneralError e') ;;
      ret (Return internal_error_response)
  end.

(** [lambda_handler(event, context)].  The last [return] stands after the
    [try] statement: what [response['MessageId']] raises there is caught
    by no clause. *)
Definition lambda_handler (R : runtime) (ses : provider) (event : value)
  : P http_response :=
  c <- try_except (try_block R ses event) (except_clauses R) ;;
  match c with
  | Return r => ret r
  | Fallthrough response =>
      message_id <- lift (py_getitem response (lit "MessageId")) ;;
      ret {| statusCode := 200;
             headers := Some cors_headers;
             body :=
               json_dumps_value R
                 (VDict [(lit "message", VStr (lit "Email sent successfully!"));
                         (lit "message_id", message_id)]) |}
  end.






End Raw.




(** ** Scenarios *)

(** [contains p s]: Python's [p in s], computed. *)
Fixpoint contains (p s : str) : bool :=
  startswith p s ||
  match s with
  | [] => false
  | _ :: s' => contains p s'
  end.

(** Python's [str()] on [None], booleans and integers; the scenarios format
    no other value that is not a string, and such a value is shown by its
    kind here. *)
Definition scenario_format (v : value) : str :=
  match v with
  | VNone => lit "None"
  | VBool true => lit "True"
  | VBool false => lit "False"
  | VInt n => lit (DecimalString.NilZero.string_of_int (Z.to_int n))
  | VFloat _ => lit "<float>"
  | VStr s => s
  | VList _ => lit "<list>"
  | VDict _ => lit "<dict>"
  end.

(** A Linux runtime whose provider gives the same answer to every
    request. *)
Definition scenario_runtime (answer : exn + str) : runtime :=
  {| os_linesep := nl;
     py_format := scenario_format;
     json_loads := Decoder.json_decode;
     send_email := fun _ => answer |}.

(** An event whose body is the given text. *)
Definition event_with_body (text : str) : value :=
  VDict [(lit "body", VStr text)].

(** One item of a JSON object, written without white space. *)
Definition item (k v : str) : str := quoted k ++ lit ":" ++ quoted v.

(** The body of the Alice scenario; its message holds the two-character
    escape of a line break. *)
Definition alice_body : str :=
  lit "{" ++ item (lit "name") (lit "Alice")
    ++ lit "," ++ item (lit "email") (lit "alice@example.com")
    ++ lit "," ++ item (lit "subject") (lit "Hi")
    ++ lit "," ++ item (lit "message") (lit "Hello\nWorld")
    ++ lit "}".

(** The message of the Alice scenario once decoded. *)
Definition alice_message : str := lit "Hello" ++ nl ++ lit "World".

(** The form data the body of the Alice scenario decodes to. *)
Definition alice_form : list (str * value) :=
  [(lit "name", VStr (lit "Alice"));
   (lit "email", VStr (lit "alice@example.com"));
   (lit "subject", VStr (lit "Hi"));
   (lit "message", VStr alice_message)].

(** The runtime of the Alice scenario: the provider returns the identifier
    [abc-123]. *)
Definition alice_runtime : runtime := scenario_runtime (inr (lit "abc-123")).

(** The Alice scenario on any platform: the line separator and the
    formatting of values that are not strings are left open. *)
Definition alice_runtime_on (linesep : str) (format : value -> str) : runtime :=
  {| os_linesep := linesep;
     py_format := format;
     json_loads := Decoder.json_decode;
     send_email := fun _ => inr (lit "abc-123") |}.

(** A submission whose fields hold markup. *)
Definition eve_body : str :=
  lit "{" ++ item (lit "name") (lit "<b>Eve</b>")
    ++ lit "," ++ item (lit "email") (lit "eve@example.com")
    ++ lit "," ++ item (lit "subject") (lit "<i>Hi</i>")
    ++ lit "," ++ item (lit "message") (lit "1 < 2\n& so on")
    ++ lit "}".

Definition eve_message : str := lit "1 < 2" ++ nl ++ lit "& so on".

Definition eve_form : list (str * value) :=
  [(lit "name", VStr (lit "<b>Eve</b>"));
   (lit "email", VStr (lit "eve@example.com"));
   (lit "subject", VStr (lit "<i>Hi</i>"));
   (lit "message", VStr eve_message)].

(** A body whose message is the JSON value [null]. *)
Definition null_message_body : str :=
  lit "{" ++ quoted (lit "message") ++ lit ": null}".

(** Bodies that are present and are not the encoding of an object: the
    empty string, two malformed texts, a number, a string, a boolean,
    [null] and an array. *)
Definition non_object_bodies : list str :=
  [ []; lit "{"; lit "name=Alice"; lit "42"; quoted (lit "hello");
    lit "true"; lit "null"; lit "[1, 2]" ].

(** The response body of the Alice scenario as the specification writes
    it, without white space. *)
Definition alice_reply_compact : str :=
  lit "{" ++ item (lit "message") (lit "Email sent successfully!")
    ++ lit "," ++ item (lit "message_id") (lit "abc-123")
    ++ lit "}".

(** An error body as [json.dumps] writes it. *)
Definition error_body (text : str) : str :=
  lit "{" ++ quoted (lit "error") ++ lit ": " ++ quoted text ++ lit "}".

(** The request the handler sends for a decoded form whose message is the
    string [m]. *)
Definition form_request (R : runtime) (form : list (str * value)) (m : str)
  : send_request :=
  build_request R
    (form_field form (lit "name"))
    (form_field form (lit "email"))
    (form_field form (lit "subject"))
    (str_replace (os_linesep R) (lit "<br>") m)
    (VStr m).

(** The response that follows the provider's answer. *)
Definition answer_response (a : exn + str) : http_response :=
  match a with
  | inr message_id => success_response message_id
  | inl (ClientError _) => send_failed_response
  | inl _ => internal_error_response
  end.

(** What the [except] clauses print after the provider's answer. *)
Definition answer_log (a : exn + str) : list effect :=
  match a with
  | inr _ => []
  | inl (ClientError message) =>
      [Print (lit "SES Send Email Error: " ++ message)]
  | inl e => [PrintGeneralError e]
  end.

(** A body that is present and does not lead to a request: it is not a
    string, or does not decode, or decodes to something else than an
    object, or to an object whose message is not a string. *)
Definition unusable (R : runtime) (raw : value) : Prop :=
  match raw with
  | VStr s =>
      match json_loads R s with
      | Some (VDict form) => is_str (form_field form (lit "message")) = false
      | _ => True
      end
  | _ => True
  end.

(** The outcomes of a run, as the caller and the provider see them. *)
Definition response_of (R : runtime) (event : value) : exn + http_response :=
  outcome (lambda_handler R event).

Definition calls_of (R : runtime) (event : value) : list send_request :=
  provider_calls (trace (lambda_handler R event)).

(** A character [json.dumps] writes as it is. *)
Definition plain_char (c : N) : bool :=
  N.leb 32 c && N.leb c 126 && negb (N.eqb c QUOTE) && negb (N.eqb c BACKSLASH).

(** The success body as [json.dumps] writes it, given the identifier as it
    is encoded. *)
Definition success_body (encoded_id : str) : str :=
  lit "{" ++ quoted (lit "message") ++ lit ": "
    ++ quoted (lit "Email sent successfully!") ++ lit ", "
    ++ quoted (lit "message_id") ++ lit ": " ++ encoded_id ++ lit "}".


(** A form whose [name] is a number and whose [email] is [null]. *)
Definition mixed_body : str :=
  lit "{" ++ quoted (lit "name") ++ lit ": 42, "
    ++ quoted (lit "email") ++ lit ": null, "
    ++ item (lit "message") (lit "hi") ++ lit "}".

Definition mixed_form : list (str * value) :=
  [(lit "name", VInt 42); (lit "email", VNone); (lit "message", VStr (lit "hi"))].

(** The body of the Alice scenario with one more key. *)
Definition alice_body_with_phone : str :=
  lit "{" ++ item (lit "phone") (lit "555-0100")
    ++ lit "," ++ item (lit "name") (lit "Alice")
    ++ lit "," ++ item (lit "email") (lit "alice@example.com")
    ++ lit "," ++ item (lit "subject") (lit "Hi")
    ++ lit "," ++ item (lit "message") (lit "Hello\nWorld")
    ++ lit "}".

(** An event as API Gateway builds it, with keys next to the body. *)
Definition gateway_event (text : str) : value :=
  VDict [(lit "httpMethod", VStr (lit "GET"));
         (lit "isBase64Encoded", VBool true);
         (lit "body", VStr text)].

(** A Unicode scalar value: a code point that is not a surrogate. *)
Definition scalar (c : N) : bool :=
  N.ltb c 1114112 && negb (N.leb 55296 c && N.leb c 57343).

(** An item whose key and value are made of scalar values. *)
Definition scalar_item (kv : str * str) : bool :=
  forallb scalar (fst kv) && forallb scalar (snd kv).

(** The dictionary built by storing the items, in order, as the object
    loop of the decoder does. *)
Definition load_items (acc : list (str * value)) (items : list (str * str))
  : list (str * value) :=
  fold_left (fun d kv => dict_set d (fst kv) (VStr (snd kv))) items acc.

(** What the replacement does to one character when the separator is the
    single character [sep]. *)
Definition replace_char (sep : N) (new : str) (x : N) : str :=
  if N.eqb x sep then new else [x].

(** A message typed in a browser: its line break is a carriage return and
    a line feed. *)
Definition crlf_body : str :=
  lit "{" ++ item (lit "message") (lit "a\r\nb") ++ lit "}".

Definition crlf_message : str := lit "a" ++ [CR; LF] ++ lit "b".

(** A body whose [name], [email] and [subject] are the JSON value [null]. *)
Definition null_fields_body : str :=
  lit "{" ++ quoted (lit "name") ++ lit ": null, "
    ++ quoted (lit "email") ++ lit ": null, "
    ++ quoted (lit "subject") ++ lit ": null, "
    ++ item (lit "message") (lit "hi") ++ lit "}".

Definition null_fields_form : list (str * value) :=
  [(lit "name", VNone); (lit "email", VNone); (lit "subject", VNone);
   (lit "message", VStr (lit "hi"))].


(** * Properties *)

(** ** Strings *)

Lemma str_eqb_eq (a b : str) : str_eqb a b = true <-> a = b.
Proof.
  revert b; induction a as [|x a IH]; intros [|y b]; simpl;
    try (split; [discriminate | congruence]); try tauto.
  rewrite andb_true_iff, N.eqb_eq, IH.
  split; [intros [-> ->]; reflexivity | intros E; inversion E; auto].
Qed.

Lemma startswith_app (p r : str) : startswith p (p ++ r) = true.
Proof.
  induction p as [|x p IH]; simpl; [reflexivity|].
  now rewrite N.eqb_refl, IH.
Qed.

Lemma startswith_spec (p s : str) :
  startswith p s = true <-> exists r, s = p ++ r.
Proof.
  split.
  - revert s; induction p as [|x p IH]; intros s H.
    + now exists s.
    + destruct s as [|y s]; simpl in H; [discriminate|].
      apply andb_true_iff in H as [E H]. apply N.eqb_eq in E; subst y.
      destruct (IH _ H) as [r ->]. now exists r.
  - intros [r ->]. apply startswith_app.
Qed.

Lemma contains_unfold (p s : str) :
  contains p s =
  startswith p s || match s with [] => false | _ :: s' => contains p s' end.
Proof. destruct s; reflexivity. Qed.

Lemma contains_spec (p s : str) : contains p s = true <-> occurs p s.
Proof.
  split.
  - induction s as [|c s IH]; rewrite contains_unfold; intros H;
      apply orb_true_iff in H as [H|H]; try discriminate.
    + apply startswith_spec in H as [r E]. now exists [], r.
    + apply startswith_spec in H as [r E]. now exists [], r.
    + destruct (IH H) as (a & b & ->). now exists (c :: a), b.
  - intros (a & b & ->). induction a as [|x a IH].
    + rewrite contains_unfold. cbn [app]. now rewrite startswith_app.
    + cbn [app]. rewrite contains_unfold, IH. apply orb_true_r.
Qed.

Lemma not_contains_spec (p s : str) : contains p s = false <-> ~ occurs p s.
Proof.
  rewrite <- contains_spec. destruct (contains p s); intuition congruence.
Qed.

(** A match still being skipped is the same as starting after it. *)
Lemma replace_from_skip (old new : str) (k : nat) (s : str) :
  replace_from old new k s = replace_from old new 0 (skipn k s).
Proof.
  revert k; induction s as [|c s IH]; intros [|k]; try reflexivity.
  simpl replace_from at 1. now rewrite IH.
Qed.

(** The equations of [str.replace]: where [old] starts, [new] is written
    and the scan goes on after [old]; elsewhere the character is kept. *)
Lemma str_replace_nil (old new : str) :
  old <> [] -> str_replace old new [] = [].
Proof. destruct old; [congruence | reflexivity]. Qed.

Lemma str_replace_match (old new : str) (c : N) (s : str) :
  old <> [] ->
  startswith old (c :: s) = true ->
  str_replace old new (c :: s) =
  new ++ str_replace old new (skipn (List.length old) (c :: s)).
Proof.
  destruct old as [|o old]; [congruence|]; intros _ H.
  unfold str_replace. cbn [replace_from]. rewrite H.
  replace (List.length (o :: old) - 1) with (List.length old)
    by (cbn [List.length]; lia).
  now rewrite replace_from_skip.
Qed.

Lemma str_replace_copy (old new : str) (c : N) (s : str) :
  old <> [] ->
  startswith old (c :: s) = false ->
  str_replace old new (c :: s) = c :: str_replace old new s.
Proof.
  destruct old as [|o old]; [congruence|]; intros _ H.
  unfold str_replace. cbn [replace_from]. now rewrite H.
Qed.

Lemma occurs_cons (p : str) (c : N) (s : str) :
  occurs p (c :: s) -> startswith p (c :: s) = true \/ occurs p s.
Proof.
  intros ([|x a] & b & E).
  - left. apply startswith_spec. now exists b.
  - right. inversion E; subst. now exists a, b.
Qed.

(** A text without [old] is left as it is. *)
Lemma str_replace_absent (old new s : str) :
  old <> [] -> ~ occurs old s -> str_replace old new s = s.
Proof.
  intros Hold. induction s as [|c s IH]; intros H.
  - now apply str_replace_nil.
  - rewrite str_replace_copy; trivial.
    + f_equal. apply IH. intros (a & b & ->). apply H. now exists (c :: a), b.
    + destruct (startswith old (c :: s)) eqn:E; trivial.
      exfalso. apply H. apply startswith_spec in E as [r E]. now exists [], r.
Qed.

Lemma str_replace_from (old new s : str) :
  old <> [] -> str_replace old new s = replace_from old new 0 s.
Proof. destruct old; [congruence | reflexivity]. Qed.

(** A prefix made of characters of [old] cannot come from [new]: it was
    copied from the text. *)
Lemma startswith_replace (old new p s : str) :
  old <> [] -> new <> [] -> disjoint old new ->
  (forall c, In c p -> In c old) ->
  startswith p (str_replace old new s) = true ->
  startswith p s = true.
Proof.
  intros Hold Hnew Hd.
  revert p; induction s as [|c s IH]; intros [|x p] Hp H; trivial.
  - now rewrite str_replace_nil in H.
  - destruct (startswith old (c :: s)) eqn:E.
    + rewrite str_replace_match in H; trivial.
      destruct new as [|n new']; [congruence|].
      cbn [app startswith] in H. apply andb_true_iff in H as [H _].
      apply N.eqb_eq in H; subst n.
      exfalso. apply (Hd x); [apply Hp|]; now left.
    + rewrite str_replace_copy in H; trivial.
      cbn [startswith] in *. apply andb_true_iff in H as [-> H].
      apply IH in H; [now rewrite H|].
      intros y Hy. apply Hp. now right.
Qed.

(** An occurrence of [old] does not start inside [new]. *)
Lemma occurs_after (old new n x : str) :
  old <> [] -> disjoint old new ->
  (forall c, In c n -> In c new) -> occurs old (n ++ x) -> occurs old x.
Proof.
  intros Hold Hd.
  induction n as [|y n IH]; intros Hn H; trivial.
  cbn [app] in H. apply occurs_cons in H as [H|H].
  - destruct old as [|o old']; [congruence|].
    cbn [startswith] in H. apply andb_true_iff in H as [H _].
    apply N.eqb_eq in H; subst y.
    exfalso. apply (Hd o); [|apply Hn]; now left.
  - apply IH; trivial. intros c Hc. apply Hn. now right.
Qed.

Lemma not_occurs_nil (old : str) : old <> [] -> ~ occurs old [].
Proof.
  intros Hold (a & b & E). symmetry in E.
  apply app_eq_nil in E as [_ E]. now apply app_eq_nil in E as [E _].
Qed.

(** After the replacement no occurrence of [old] is left. *)
Lemma replace_from_removes (old new : str) (k : nat) (s : str) :
  old <> [] -> new <> [] -> disjoint old new ->
  ~ occurs old (replace_from old new k s).
Proof.
  intros Hold Hnew Hd.
  revert k; induction s as [|c s IH]; intros k.
  - destruct k; now apply not_occurs_nil.
  - destruct k as [|k]; cbn [replace_from]; [|apply IH].
    destruct (startswith old (c :: s)) eqn:E.
    + intros H. apply occurs_after with (new := new) in H; auto.
      now apply IH in H.
    + intros H. apply occurs_cons in H as [H|H]; [|now apply IH in H].
      rewrite <- str_replace_from, <- str_replace_copy in H by trivial.
      apply startswith_replace in H; auto. congruence.
Qed.

Lemma str_replace_removes (old new s : str) :
  old <> [] -> new <> [] -> disjoint old new ->
  ~ occurs old (str_replace old new s).
Proof.
  intros. rewrite str_replace_from by trivial. now apply replace_from_removes.
Qed.

(** ** The monad *)

Lemma bind_ret {A B} (a : A) (f : A -> M B) : bind (ret a) f = f a.
Proof. unfold bind, ret. now destruct (f a). Qed.

Lemma bind_raise {A B} (e : exn) (f : A -> M B) : bind (raise e) f = raise e.
Proof. reflexivity. Qed.

(** ** The steps of the handler *)

Lemma process_form_not_dict (R : runtime) (v : value) :
  is_dict v = false -> process_form R v = raise AttributeError.
Proof. now destruct v. Qed.

Lemma process_form_bad_message (R : runtime) (form : list (str * value)) :
  is_str (form_field form (lit "message")) = false ->
  process_form R (VDict form) = raise AttributeError.
Proof.
  intros H. unfold process_form, py_get. rewrite !bind_ret.
  fold (form_field form (lit "message")).
  now destruct (form_field form (lit "message")).
Qed.

Lemma process_form_send (R : runtime) (form : list (str * value)) (m : str) :
  form_field form (lit "message") = VStr m ->
  process_form R (VDict form) =
  (match send_email R (form_request R form m) with
   | inr message_id => inr (Fallthrough message_id)
   | inl e => inl e
   end, [SendEmail (form_request R form m)]).
Proof.
  intros H. unfold process_form, py_get. rewrite !bind_ret.
  fold (form_field form (lit "name")) (form_field form (lit "email"))
    (form_field form (lit "subject")) (form_field form (lit "message")).
  rewrite H. cbn [py_replace_linesep]. rewrite bind_ret.
  fold (form_request R form m).
  unfold ses_send_email, emit, bind.
  now destruct (send_email R (form_request R form m)).
Qed.

Lemma try_block_not_dict (R : runtime) (event : value) :
  is_dict event = false -> try_block R event = raise AttributeError.
Proof. now destruct event. Qed.

Lemma try_block_no_body (R : runtime) (d : list (str * value)) :
  get_default d (lit "body") VNone = VNone ->
  try_block R (VDict d) =
  (inr (Return no_body_response), [Print (lit "No body found in the event.")]).
Proof.
  intros H. unfold try_block, py_get. rewrite bind_ret, H. reflexivity.
Qed.

Lemma try_block_body (R : runtime) (d : list (str * value)) (raw : value) :
  dict_get d (lit "body") = Some raw -> raw <> VNone ->
  try_block R (VDict d) =
  bind (py_json_loads R raw) (process_form R).
Proof.
  intros H Hraw. unfold try_block, py_get, py_getitem, get_default.
  rewrite bind_ret, H, bind_ret. now destruct raw.
Qed.

(** The handler on a computation of the [try] statement. *)
Lemma handler_raised (R : runtime) (event : value) (e : exn) (t : list effect) :
  try_block R event = (inl e, t) ->
  lambda_handler R event =
  match e with
  | ClientError message =>
      (inr send_failed_response,
       t ++ [Print (lit "SES Send Email Error: " ++ message)])
  | _ => (inr internal_error_response, t ++ [PrintGeneralError e])
  end.
Proof.
  intros H. unfold lambda_handler. rewrite H.
  destruct e; cbn; now rewrite ?app_nil_r.
Qed.

Lemma handler_completed (R : runtime) (event : value) (c : completion)
    (t : list effect) :
  try_block R event = (inr c, t) ->
  lambda_handler R event =
  (inr match c with
       | Return r => r
       | Fallthrough message_id => success_response message_id
       end, t).
Proof.
  intros H. unfold lambda_handler. rewrite H.
  destruct c; cbn; now rewrite ?app_nil_r.
Qed.

Lemma form_field_absent (form : list (str * value)) (k : str) :
  dict_get form k = None -> form_field form k = VStr (lit "N/A").
Proof. unfold form_field, get_default. now intros ->. Qed.

Lemma form_field_present (form : list (str * value)) (k : str) (v : value) :
  dict_get form k = Some v -> form_field form k = v.
Proof. unfold form_field, get_default. now intros ->. Qed.

(** ** The runs of the handler *)

Lemma handler_no_body (R : runtime) (d : list (str * value)) :
  get_default d (lit "body") VNone = VNone ->
  lambda_handler R (VDict d) =
  (inr no_body_response, [Print (lit "No body found in the event.")]).
Proof.
  intros H. now rewrite (handler_completed _ _ (try_block_no_body R _ H)).
Qed.

Lemma handler_send (R : runtime) (d form : list (str * value)) (s m : str) :
  dict_get d (lit "body") = Some (VStr s) ->
  json_loads R s = Some (VDict form) ->
  form_field form (lit "message") = VStr m ->
  lambda_handler R (VDict d) =
  (inr (answer_response (send_email R (form_request R form m))),
   SendEmail (form_request R form m)
     :: answer_log (send_email R (form_request R form m))).
Proof.
  intros Hb Hs Hm.
  assert (T : try_block R (VDict d) =
              (match send_email R (form_request R form m) with
               | inr message_id => inr (Fallthrough message_id)
               | inl e => inl e
               end, [SendEmail (form_request R form m)])).
  { rewrite (try_block_body R _ Hb) by discriminate.
    cbn [py_json_loads]. rewrite Hs, bind_ret. now apply process_form_send. }
  destruct (send_email R (form_request R form m)) as [e|message_id].
  - rewrite (handler_raised _ _ T). now destruct e.
  - now rewrite (handler_completed _ _ T).
Qed.

Lemma handler_unusable (R : runtime) (d : list (str * value)) (raw : value) :
  dict_get d (lit "body") = Some raw -> raw <> VNone -> unusable R raw ->
  exists e,
    lambda_handler R (VDict d) =
    (inr internal_error_response, [PrintGeneralError e])
    /\ forall message, e <> ClientError message.
Proof.
  intros Hb Hraw U.
  assert (T : exists e, try_block R (VDict d) = (inl e, [])
                        /\ forall message, e <> ClientError message).
  { rewrite (try_block_body R _ Hb Hraw).
    destruct raw as [| | | |s| |];
      try (exists TypeError; split; [reflexivity | discriminate]).
    cbn [py_json_loads unusable] in *.
    destruct (json_loads R s) as [v|];
      [|exists JSONDecodeError; split; [reflexivity | discriminate]].
    rewrite bind_ret. exists AttributeError. split; [|discriminate].
    destruct v; try (now apply process_form_not_dict).
    now apply process_form_bad_message. }
  destruct T as (e & T & He). exists e. split; trivial.
  rewrite (handler_raised _ _ T).
  destruct e; try reflexivity. now destruct (He message).
Qed.

Lemma handler_not_dict (R : runtime) (event : value) :
  is_dict event = false ->
  lambda_handler R event =
  (inr internal_error_response, [PrintGeneralError AttributeError]).
Proof.
  intros H. now rewrite (handler_raised _ _ (try_block_not_dict R _ H)).
Qed.

(** Every run is one of three: the body is missing; the body is unusable
    (or the event is no dictionary); a request is sent and the provider's
    answer decides. *)
Lemma handler_cases (R : runtime) (event : value) :
  lambda_handler R event =
    (inr no_body_response, [Print (lit "No body found in the event.")])
  \/ (exists e,
        lambda_handler R event =
          (inr internal_error_response, [PrintGeneralError e])
        /\ forall message, e <> ClientError message)
  \/ (exists d form s m,
        event = VDict d
        /\ dict_get d (lit "body") = Some (VStr s)
        /\ json_loads R s = Some (VDict form)
        /\ form_field form (lit "message") = VStr m
        /\ lambda_handler R event =
           (inr (answer_response (send_email R (form_request R form m))),
            SendEmail (form_request R form m)
              :: answer_log (send_email R (form_request R form m)))).
Proof.
  destruct event as [| | | | | |d];
    try (right; left; exists AttributeError; split;
         [now apply handler_not_dict | discriminate]).
  destruct (dict_get d (lit "body")) as [raw|] eqn:Hb.
  2:{ left. apply handler_no_body. unfold get_default. now rewrite Hb. }
  destruct raw as [| | | |s| |];
    try (right; left; apply (handler_unusable R _ Hb);
         [discriminate | exact I]).
  - left. apply handler_no_body. unfold get_default. now rewrite Hb.
  - destruct (json_loads R s) as [v|] eqn:Hs.
    2:{ right; left. apply (handler_unusable R _ Hb); [discriminate|].
        cbn. now rewrite Hs. }
    destruct v as [| | | | | |form];
      try (right; left; apply (handler_unusable R _ Hb); [discriminate|];
           cbn; now rewrite Hs).
    destruct (form_field form (lit "message")) as [| | | |m| |] eqn:Hm;
      try (right; left; apply (handler_unusable R _ Hb); [discriminate|];
           cbn [unusable]; now rewrite Hs, Hm).
    right; right. exists d, form, s, m. repeat split; trivial.
    now apply handler_send with (s := s).
Qed.

Lemma provider_calls_answer_log (a : exn + str) :
  provider_calls (answer_log a) = [].
Proof. now destruct a as [[]|]. Qed.

Lemma calls_of_cases (R : runtime) (event : value) :
  calls_of R event = []
  \/ exists d form s m,
       event = VDict d
       /\ dict_get d (lit "body") = Some (VStr s)
       /\ json_loads R s = Some (VDict form)
       /\ form_field form (lit "message") = VStr m
       /\ calls_of R event = [form_request R form m]
       /\ response_of R event =
          inr (answer_response (send_email R (form_request R form m))).
Proof.
  unfold calls_of, response_of.
  destruct (handler_cases R event) as [H|[(e & H & _)|(d & form & s & m & H)]].
  - left. now rewrite H.
  - left. now rewrite H.
  - right. exists d, form, s, m. destruct H as (? & ? & ? & ? & H).
    rewrite H. cbn. rewrite provider_calls_answer_log. now repeat split.
Qed.

(** ** What [json.dumps] writes *)

Lemma encode_plain_char (c : N) : plain_char c = true -> encode_char c = [c].
Proof.
  unfold plain_char. intros H.
  apply andb_true_iff in H as [H Hb]. apply andb_true_iff in H as [H Hq].
  apply andb_true_iff in H as [Hlo Hhi]. apply negb_true_iff in Hb, Hq.
  unfold encode_char. rewrite Hq, Hb.
  assert (L : (32 <= c)%N) by now apply N.leb_le.
  destruct (N.eqb_spec c 10); [lia|]. destruct (N.eqb_spec c 13); [lia|].
  destruct (N.eqb_spec c 9); [lia|]. destruct (N.eqb_spec c 8); [lia|].
  destruct (N.eqb_spec c 12); [lia|]. now rewrite Hlo, Hhi.
Qed.

Lemma encode_plain (s : str) :
  forallb plain_char s = true -> encode_basestring_ascii s = quoted s.
Proof.
  unfold encode_basestring_ascii. intros H. f_equal.
  induction s as [|c s IH]; [reflexivity|].
  cbn [forallb] in H. apply andb_true_iff in H as [Hc H].
  cbn [flat_map]. now rewrite (encode_plain_char _ Hc), IH.
Qed.

Lemma success_response_body (message_id : str) :
  body (success_response message_id) =
  success_body (encode_basestring_ascii message_id).
Proof.
  unfold success_response, body, json_dumps, dumps_items, success_body.
  rewrite !(encode_plain (lit _)) by reflexivity.
  now rewrite <- !app_assoc.
Qed.

(** ** Lines of a template *)

Lemma join_lines_cons (l : str) (ls : list str) :
  ls <> [] -> join_lines (l :: ls) = l ++ nl ++ join_lines ls.
Proof. destruct ls; [congruence | reflexivity]. Qed.

Lemma join_lines_app (a b : list str) :
  a <> [] -> b <> [] ->
  join_lines (a ++ b) = join_lines a ++ nl ++ join_lines b.
Proof.
  intros Ha Hb. induction a as [|x a IH]; [congruence|].
  destruct a as [|y a].
  - cbn [app]. now rewrite join_lines_cons.
  - change ((x :: y :: a) ++ b) with (x :: (y :: a) ++ b).
    rewrite !join_lines_cons, IH, <- !app_assoc by discriminate.
    reflexivity.
Qed.

Lemma occurs_refl (s : str) : occurs s s.
Proof. exists [], []. now rewrite app_nil_r. Qed.

Lemma occurs_app_l (p a s : str) : occurs p s -> occurs p (a ++ s).
Proof. intros (x & y & ->). exists (a ++ x), y. now rewrite app_assoc. Qed.

Lemma occurs_app_r (p s b : str) : occurs p s -> occurs p (s ++ b).
Proof.
  intros (x & y & ->). exists x, (y ++ b). now rewrite <- !app_assoc.
Qed.

(** Consecutive lines of a template occur in it, line breaks included. *)
Lemma occurs_join_lines (pre blk post : list str) :
  blk <> [] -> occurs (join_lines blk) (join_lines (pre ++ blk ++ post)).
Proof.
  intros Hblk.
  assert (H : occurs (join_lines blk) (join_lines (blk ++ post))).
  { destruct post as [|l post].
    - rewrite app_nil_r. apply occurs_refl.
    - rewrite join_lines_app by (trivial || discriminate).
      apply occurs_app_r, occurs_refl. }
  destruct pre as [|l pre]; trivial.
  rewrite join_lines_app; try discriminate.
  - now apply occurs_app_l, occurs_app_l.
  - destruct blk; [congruence | discriminate].
Qed.

(** The line separators of POSIX and of Windows are not empty and share no
    character with [<br>]. *)
Lemma linesep_disjoint :
  disjoint [LF] (lit "<br>") /\ disjoint [CR; LF] (lit "<br>").
Proof.
  split; intros c Hc Hn; cbn in Hc, Hn;
    repeat match goal with
           | H : _ \/ _ |- _ => destruct H
           | H : False |- _ => destruct H
           end; subst; discriminate.
Qed.

(** ** Reading back what [json.dumps] writes *)

Import Decoder.

Lemma hex_value_digit (d : N) : (d < 16)%N -> hex_value (hex_digit d) = Some d.
Proof.
  intros H.
  assert (E : In d [0;1;2;3;4;5;6;7;8;9;10;11;12;13;14;15]%N).
  { cbn. lia. }
  cbn in E. repeat (destruct E as [<-|E]; [reflexivity|]). destruct E.
Qed.

Lemma hex4_uXXXX (u : N) (rest : str) :
  (u < 65536)%N ->
  exists a b c d,
    uXXXX u = BACKSLASH :: ch "u" :: [a; b; c; d]
    /\ hex4 (a :: b :: c :: d :: rest) = Some (u, rest).
Proof.
  intros H. unfold uXXXX. do 4 eexists. split; [reflexivity|].
  unfold hex4.
  rewrite !hex_value_digit by (apply N.mod_lt; discriminate).
  do 2 f_equal.
  change 4096%N with (16 * 16 * 16)%N. change 256%N with (16 * 16)%N.
  rewrite <- !N.Div0.div_div.
  assert (D : (u / 16 / 16 / 16 < 16)%N).
  { rewrite !N.Div0.div_div. apply N.Div0.div_lt_upper_bound. cbn. lia. }
  rewrite (N.mod_small _ _ D).
  pose proof (N.div_mod u 16 ltac:(discriminate)) as E0.
  pose proof (N.div_mod (u / 16) 16 ltac:(discriminate)) as E1.
  pose proof (N.div_mod (u / 16 / 16) 16 ltac:(discriminate)) as E2.
  set (d0 := (u mod 16)%N) in *. set (q1 := (u / 16)%N) in *.
  set (d1 := (q1 mod 16)%N) in *. set (q2 := (q1 / 16)%N) in *.
  set (d2 := (q2 mod 16)%N) in *. set (q3 := (q2 / 16)%N) in *.
  clearbody d0 q1 d1 q2 d2 q3. lia.
Qed.

Lemma lor_disjoint (a b : N) : N.land a b = 0%N -> N.lor a b = (a + b)%N.
Proof.
  intros H. now rewrite <- N.lxor_lor, N.add_nocarry_lxor.
Qed.

Lemma land_shiftl_low (a x : N) :
  (x < 1024)%N -> N.land (N.shiftl a 10) x = 0%N.
Proof.
  intros H. apply N.bits_inj. intros m.
  rewrite N.land_spec, N.bits_0.
  destruct (N.lt_ge_cases m 10) as [L|L].
  - now rewrite N.shiftl_spec_low.
  - rewrite <- (N.mod_small x (2 ^ 10)) by exact H.
    rewrite N.mod_pow2_bits_high by exact L. apply andb_false_r.
Qed.

Lemma lor_shiftl_low (a x : N) :
  (x < 1024)%N -> N.lor (N.shiftl a 10) x = (a * 1024 + x)%N.
Proof.
  intros H. rewrite lor_disjoint by now apply land_shiftl_low.
  now rewrite N.shiftl_mul_pow2.
Qed.

Lemma high_of_pair (n : N) :
  (n < 1048576)%N ->
  N.lor 55296 (N.land (N.shiftr n 10) 1023) = (55296 + n / 1024)%N.
Proof.
  intros H. change 1023%N with (N.ones 10).
  rewrite N.land_ones, N.shiftr_div_pow2.
  change (2 ^ 10)%N with 1024%N.
  rewrite N.mod_small by (apply N.Div0.div_lt_upper_bound; lia).
  change 55296%N with (N.shiftl 54 10).
  rewrite lor_shiftl_low by (apply N.Div0.div_lt_upper_bound; lia).
  reflexivity.
Qed.

Lemma low_of_pair (n : N) :
  N.lor 56320 (N.land n 1023) = (56320 + n mod 1024)%N.
Proof.
  change 1023%N with (N.ones 10). rewrite N.land_ones.
  change (2 ^ 10)%N with 1024%N. change 56320%N with (N.shiftl 55 10).
  rewrite lor_shiftl_low by (apply N.mod_lt; discriminate).
  reflexivity.
Qed.

Lemma join_pair (n : N) :
  (n < 1048576)%N ->
  (65536 + N.lor (N.shiftl (55296 + n / 1024 - 55296) 10)
                 (56320 + n mod 1024 - 56320))%N
  = (65536 + n)%N.
Proof.
  intros H.
  rewrite (N.add_comm 55296), (N.add_comm 56320), !N.add_sub.
  rewrite lor_shiftl_low by (apply N.mod_lt; discriminate).
  f_equal. rewrite N.mul_comm. symmetry. now apply N.div_mod.
Qed.

Lemma scanstring_escape_u (f : nat) (acc : str) (a b c d : N) (rest : str) :
  scanstring (S f) acc (BACKSLASH :: ch "u" :: a :: b :: c :: d :: rest) =
  match hex4 (a :: b :: c :: d :: rest) with
  | None => None
  | Some (u, r) =>
      if high_surrogate u then
        match r with
        | b :: x :: r2 =>
            if N.eqb b BACKSLASH && N.eqb x (ch "u") then
              match hex4 r2 with
              | None => None
              | Some (u2, r3) =>
                  if low_surrogate u2
                  then scanstring f
                         (65536 + N.lor (N.shiftl (u - 55296) 10)
                                    (u2 - 56320) :: acc)%N r3
                  else scanstring f (u :: acc) r
              end
            else scanstring f (u :: acc) r
        | _ => scanstring f (u :: acc) r
        end
      else scanstring f (u :: acc) r
  end.
Proof. reflexivity. Qed.

Lemma scanstring_char (c : N) (f : nat) (acc rest : str) :
  scalar c = true ->
  scanstring (S f) acc (encode_char c ++ rest) = scanstring f (c :: acc) rest.
Proof.
  unfold scalar. intros Hs. apply andb_true_iff in Hs as [Hmax Hsur].
  apply N.ltb_lt in Hmax. apply negb_true_iff in Hsur.
  assert (Hns : (c < 55296 \/ 57343 < c)%N).
  { apply andb_false_iff in Hsur as [Hs|Hs]; apply N.leb_gt in Hs; auto. }
  clear Hsur. unfold encode_char.
  destruct (N.eqb_spec c QUOTE) as [->|Hq]; [reflexivity|].
  destruct (N.eqb_spec c BACKSLASH) as [->|Hb]; [reflexivity|].
  destruct (N.eqb_spec c 10) as [->|H10]; [reflexivity|].
  destruct (N.eqb_spec c 13) as [->|H13]; [reflexivity|].
  destruct (N.eqb_spec c 9) as [->|H9]; [reflexivity|].
  destruct (N.eqb_spec c 8) as [->|H8]; [reflexivity|].
  destruct (N.eqb_spec c 12) as [->|H12]; [reflexivity|].
  destruct (N.leb 32 c && N.leb c 126) eqn:P.
  - apply andb_true_iff in P as [P _]. apply N.leb_le in P.
    cbn [app scanstring].
    rewrite (proj2 (N.eqb_neq _ _) Hq), (proj2 (N.eqb_neq _ _) Hb).
    now rewrite (proj2 (N.ltb_ge _ _) P).
  - destruct (N.ltb_spec c 65536) as [L|L].
    + destruct (hex4_uXXXX rest L) as (a & b & c' & d & E & Hh).
      rewrite E. cbn [app]. rewrite scanstring_escape_u, Hh.
      assert (HS : high_surrogate c = false).
      { unfold high_surrogate.
        destruct (N.leb_spec 55296 c), (N.leb_spec c 56319); trivial. lia. }
      now rewrite HS.
    + assert (Hn : (c - 65536 < 1048576)%N) by lia.
      rewrite high_of_pair by exact Hn. rewrite low_of_pair.
      assert (Hq' : ((c - 65536) / 1024 < 1024)%N)
        by (apply N.Div0.div_lt_upper_bound; lia).
      assert (Hr' : ((c - 65536) mod 1024 < 1024)%N)
        by (apply N.mod_lt; discriminate).
      pose proof (join_pair Hn) as J. revert J.
      generalize dependent ((c - 65536) / 1024)%N.
      generalize dependent ((c - 65536) mod 1024)%N.
      intros lo Hlo' hi Hhi' J.
      assert (Hhi : (55296 + hi < 65536)%N) by lia.
      assert (Hlo : (56320 + lo < 65536)%N) by lia.
      destruct (hex4_uXXXX rest Hlo) as (a2 & b2 & c2 & d2 & E2 & Hh2).
      destruct (hex4_uXXXX (uXXXX (56320 + lo) ++ rest) Hhi)
        as (a1 & b1 & c1 & d1 & E1 & Hh1).
      rewrite E1. cbn [app]. rewrite scanstring_escape_u, Hh1.
      rewrite E2. cbn [app].
      assert (HS : high_surrogate (55296 + hi) = true).
      { unfold high_surrogate. apply andb_true_iff. split; apply N.leb_le; lia. }
      assert (LS : low_surrogate (56320 + lo) = true).
      { unfold low_surrogate. apply andb_true_iff. split; apply N.leb_le; lia. }
      rewrite HS, !N.eqb_refl. cbn [andb]. rewrite Hh2, LS.
      rewrite J. f_equal. f_equal. lia.
Qed.

Lemma scanstring_quote (f : nat) (acc rest : str) :
  scanstring (S f) acc (QUOTE :: rest) = Some (rev acc, rest).
Proof. reflexivity. Qed.

Lemma scanstring_encoded (s : str) (f : nat) (acc rest : str) :
  forallb scalar s = true ->
  List.length s < f ->
  scanstring f acc (flat_map encode_char s ++ QUOTE :: rest)
  = Some (rev acc ++ s, rest).
Proof.
  revert f acc. induction s as [|c s IH]; intros [|f] acc Hs Hf;
    try (cbn in Hf; lia).
  - cbn [flat_map app]. now rewrite scanstring_quote, app_nil_r.
  - cbn [forallb] in Hs. apply andb_true_iff in Hs as [Hc Hs].
    cbn [flat_map]. rewrite <- app_assoc, scanstring_char by exact Hc.
    rewrite IH by (trivial; cbn in Hf; lia).
    cbn [rev]. now rewrite <- app_assoc.
Qed.

Lemma encode_char_length (c : N) : 1 <= List.length (encode_char c).
Proof.
  unfold encode_char.
  repeat match goal with
         | |- context [if ?b then _ else _] => destruct b
         end; rewrite ?length_app; cbn; lia.
Qed.

Lemma encoded_length (s : str) : List.length s <= List.length (flat_map encode_char s).
Proof.
  induction s as [|c s IH]; [reflexivity|].
  cbn [flat_map List.length]. rewrite length_app.
  pose proof (encode_char_length c). lia.
Qed.

Lemma scan_once_quote (f : nat) (s : str) :
  scan_once (S f) (QUOTE :: s) =
  match scanstring (List.length s) [] s with
  | Some (x, r) => Some (VStr x, r)
  | None => None
  end.
Proof. reflexivity. Qed.

(** A string written by [json.dumps] is read back as it was. *)
Lemma scan_once_encoded (s : str) (f : nat) (rest : str) :
  forallb scalar s = true ->
  scan_once (S f) (encode_basestring_ascii s ++ rest) = Some (VStr s, rest).
Proof.
  intros Hs. unfold encode_basestring_ascii, quoted.
  cbn [app]. rewrite <- app_assoc. cbn [app].
  rewrite scan_once_quote, scanstring_encoded; trivial.
  rewrite length_app. cbn [List.length]. pose proof (encoded_length s). lia.
Qed.

Lemma scan_items_step (f : nat) (acc : list (str * value)) (s : str) :
  scan_items (S f) acc s =
  match expect QUOTE s with
  | None => None
  | Some s1 =>
      match scanstring (List.length s1) [] s1 with
      | None => None
      | Some (k, s2) =>
          match expect (ch ":") (skip_ws s2) with
          | None => None
          | Some s3 =>
              match scan_once f (skip_ws s3) with
              | None => None
              | Some (v, s4) =>
                  let s5 := skip_ws s4 in
                  match expect (ch "}") s5 with
                  | Some r => Some (VDict (dict_set acc k v), r)
                  | None =>
                      match expect (ch ",") s5 with
                      | Some s6 =>
                          scan_items f (dict_set acc k v) (skip_ws s6)
                      | None => None
                      end
                  end
              end
          end
      end
  end.
Proof. reflexivity. Qed.

(** One item written by [json.dumps], read by the object loop. *)
Lemma scan_items_item (f : nat) (acc : list (str * value)) (k v tail : str) :
  forallb scalar k = true -> forallb scalar v = true ->
  scan_items (S (S f)) acc
    (encode_basestring_ascii k ++ lit ": " ++ encode_basestring_ascii v ++ tail)
  = match expect (ch "}") (skip_ws tail) with
    | Some r => Some (VDict (dict_set acc k (VStr v)), r)
    | None =>
        match expect (ch ",") (skip_ws tail) with
        | Some s6 => scan_items (S f) (dict_set acc k (VStr v)) (skip_ws s6)
        | None => None
        end
    end.
Proof.
  intros Hk Hv. rewrite scan_items_step.
  unfold encode_basestring_ascii at 1, quoted.
  cbn [app expect]. rewrite N.eqb_refl.
  rewrite <- app_assoc. cbn [app].
  rewrite scanstring_encoded; trivial.
  2:{ rewrite length_app. cbn [List.length]. pose proof (encoded_length k). lia. }
  cbn [rev app].
  change (lit ": " ++ encode_basestring_ascii v ++ tail)
    with (ch ":" :: ch " " :: encode_basestring_ascii v ++ tail).
  change (skip_ws (ch ":" :: ch " " :: encode_basestring_ascii v ++ tail))
    with (ch ":" :: ch " " :: encode_basestring_ascii v ++ tail).
  cbn [expect]. rewrite N.eqb_refl.
  change (skip_ws (ch " " :: encode_basestring_ascii v ++ tail))
    with (skip_ws (encode_basestring_ascii v ++ tail)).
  change (skip_ws (encode_basestring_ascii v ++ tail))
    with (encode_basestring_ascii v ++ tail).
  now rewrite scan_once_encoded.
Qed.

Lemma dumps_items_quote (i : str * str) (items : list (str * str)) :
  exists x, dumps_items (i :: items) = QUOTE :: x.
Proof.
  destruct i as [k v], items as [|j items]; cbn [dumps_items];
    unfold encode_basestring_ascii at 1, quoted; cbn [app]; eauto.
Qed.

Lemma scan_items_dumps (items : list (str * str)) :
  forall (acc : list (str * value)) (f : nat) (rest : str),
    items <> [] ->
    forallb scalar_item items = true ->
    List.length items < f ->
    scan_items f acc (dumps_items items ++ lit "}" ++ rest)
    = Some (VDict (load_items acc items), rest).
Proof.
  induction items as [|[k v] more IH]; intros acc f rest Hne Hs Hf;
    [congruence|].
  cbn [forallb] in Hs. apply andb_true_iff in Hs as [Hkv Hs].
  apply andb_true_iff in Hkv as [Hk Hv]. cbn [fst snd] in Hk, Hv.
  destruct f as [|[|f]]; try (cbn in Hf; lia).
  destruct more as [|j more'].
  - cbn [dumps_items]. rewrite <- !app_assoc.
    rewrite scan_items_item by trivial.
    reflexivity.
  - change (dumps_items ((k, v) :: j :: more'))
      with (encode_basestring_ascii k ++ lit ": " ++ encode_basestring_ascii v
              ++ lit ", " ++ dumps_items (j :: more')).
    rewrite <- !app_assoc.
    rewrite scan_items_item by trivial.
    destruct (dumps_items_quote j more') as [x E].
    change (lit ", " ++ dumps_items (j :: more') ++ lit "}" ++ rest)
      with (ch "," :: ch " " :: dumps_items (j :: more') ++ lit "}" ++ rest).
    change (skip_ws (ch "," :: ch " " :: dumps_items (j :: more') ++ lit "}" ++ rest))
      with (ch "," :: ch " " :: dumps_items (j :: more') ++ lit "}" ++ rest).
    cbn [expect].
    change (N.eqb (ch ",") (ch "}")) with false.
    change (N.eqb (ch ",") (ch ",")) with true. cbv iota.
    change (skip_ws (ch " " :: dumps_items (j :: more') ++ lit "}" ++ rest))
      with (skip_ws (dumps_items (j :: more') ++ lit "}" ++ rest)).
    assert (W : skip_ws (dumps_items (j :: more') ++ lit "}" ++ rest)
                = dumps_items (j :: more') ++ lit "}" ++ rest)
      by (rewrite E; reflexivity).
    rewrite W. rewrite IH; trivial; [discriminate | cbn in Hf |- *; lia].
Qed.

Lemma dumps_items_length (items : list (str * str)) :
  List.length items <= List.length (dumps_items items).
Proof.
  induction items as [|[k v] more IH]; [reflexivity|].
  destruct more as [|j more'].
  - cbn [dumps_items]. unfold encode_basestring_ascii at 1, quoted.
    cbn [app List.length]. lia.
  - change (dumps_items ((k, v) :: j :: more'))
      with (encode_basestring_ascii k ++ lit ": " ++ encode_basestring_ascii v
              ++ lit ", " ++ dumps_items (j :: more')).
    rewrite !length_app. cbn [List.length] in *.
    unfold encode_basestring_ascii at 1, quoted. cbn [List.length]. lia.
Qed.

(** [json.loads(json.dumps(d))] for a dictionary of strings. *)
Lemma json_decode_dumps (items : list (str * str)) :
  forallb scalar_item items = true ->
  json_decode (json_dumps items) = Some (VDict (load_items [] items)).
Proof.
  intros Hs. unfold json_decode, json_dumps.
  change (lit "{" ++ dumps_items items ++ lit "}")
    with (ch "{" :: dumps_items items ++ lit "}").
  cbn [startswith]. change (N.eqb 65279 (ch "{")) with false. cbn [andb].
  change (skip_ws (ch "{" :: dumps_items items ++ lit "}"))
    with (ch "{" :: dumps_items items ++ lit "}").
  cbn [List.length].
  replace (2 * S (List.length (dumps_items items ++ lit "}")) + 2)
    with (S (S (2 * List.length (dumps_items items ++ lit "}") + 2))) by lia.
  destruct items as [|i items]; [reflexivity|].
  destruct (dumps_items_quote i items) as [x E].
  assert (L : List.length (i :: items)
              < S (2 * List.length (dumps_items (i :: items) ++ lit "}") + 2)).
  { rewrite length_app. pose proof (dumps_items_length (i :: items)). lia. }
  set (F := S (2 * List.length (dumps_items (i :: items) ++ lit "}") + 2)) in *.
  change (scan_once (S F) (ch "{" :: dumps_items (i :: items) ++ lit "}"))
    with (match expect (ch "}") (skip_ws (dumps_items (i :: items) ++ lit "}")) with
          | Some r => Some (VDict [], r)
          | None => scan_items F [] (skip_ws (dumps_items (i :: items) ++ lit "}"))
          end).
  assert (W : skip_ws (dumps_items (i :: items) ++ lit "}")
              = dumps_items (i :: items) ++ lit "}")
    by (rewrite E; reflexivity).
  rewrite W.
  assert (X : expect (ch "}") (dumps_items (i :: items) ++ lit "}") = None)
    by (rewrite E; reflexivity).
  rewrite X.
  rewrite <- (app_nil_r (lit "}")), scan_items_dumps; trivial; discriminate.
Qed.

Lemma unusable_dec (R : runtime) (raw : value) :
  unusable R raw
  \/ exists s form m,
       raw = VStr s /\ json_loads R s = Some (VDict form)
       /\ form_field form (lit "message") = VStr m.
Proof.
  destruct raw as [| | | |s| |]; try (left; exact I). unfold unusable.
  destruct (json_loads R s) as [[| | | | | |form]|] eqn:Hs;
    try (left; exact I).
  destruct (form_field form (lit "message")) as [| | | |m| |] eqn:Hm;
    try (left; reflexivity).
  right. now exists s, form, m.
Qed.

(** ** The handler on the replies as they come *)




















(** * The claims *)

(** C1. When the event holds no body (the key is absent or its value is
    [None]) the handler returns status 400 with the body
    [{"error": "No form data submitted."}] and no headers, and the provider
    is not called. *)
Theorem missing_body_bad_request (R : runtime) (d : list (str * value)) :
  dict_get d (lit "body") = None \/ dict_get d (lit "body") = Some VNone ->
  exists r,
    response_of R (VDict d) = inr r
    /\ statusCode r = 400%Z
    /\ headers r = None
    /\ body r = error_body (lit "No form data submitted.")
    /\ calls_of R (VDict d) = [].
Proof.
  intros H. exists no_body_response.
  assert (G : get_default d (lit "body") VNone = VNone)
    by (unfold get_default; now destruct H as [-> | ->]).
  unfold response_of, calls_of. rewrite (handler_no_body R _ G).
  now repeat split.
Qed.

Lemma missing_body_bad_request_witness :
  (dict_get [(lit "path", VStr (lit "/contact"))] (lit "body") = None
   \/ dict_get [(lit "path", VStr (lit "/contact"))] (lit "body") = Some VNone)
  /\ exists r,
       response_of (scenario_runtime (inr (lit "abc-123")))
         (VDict [(lit "path", VStr (lit "/contact"))]) = inr r
       /\ statusCode r = 400%Z
       /\ headers r = None
       /\ body r = error_body (lit "No form data submitted.")
       /\ calls_of (scenario_runtime (inr (lit "abc-123")))
            (VDict [(lit "path", VStr (lit "/contact"))]) = [].
Proof.
  split; [left; reflexivity|].
  apply missing_body_bad_request. left; reflexivity.
Defined.

(** C2. When the provider is called and answers with an identifier, the
    handler returns status 200 with the headers
    [Access-Control-Allow-Origin: *] and [Content-Type: application/json]
    and a JSON body: read back by the decoder, the body is the object
    holding the message [Email sent successfully!] and, under
    [message_id], the identifier the provider returned (an identifier
    without surrogate code points, which JSON cannot carry one by one).
    As a text the body is what [json.dumps] writes, the identifier between
    quotes when it is plain ASCII. *)
Theorem provider_success_ok (R : runtime) (event : value)
    (req : send_request) (message_id : str) :
  In req (calls_of R event) ->
  send_email R req = inr message_id ->
  exists r,
    response_of R event = inr r
    /\ statusCode r = 200%Z
    /\ headers r =
       Some [(lit "Access-Control-Allow-Origin", lit "*");
             (lit "Content-Type", lit "application/json")]
    /\ (forallb scalar message_id = true ->
        json_decode (body r) =
        Some (VDict [(lit "message", VStr (lit "Email sent successfully!"));
                     (lit "message_id", VStr message_id)]))
    /\ body r =
       success_body (if forallb plain_char message_id
                     then quoted message_id
                     else encode_basestring_ascii message_id).
Proof.
  intros Hin Hsend.
  destruct (calls_of_cases R event) as [E|(d & form & s & m & _ & _ & _ & _ & E & Hr)].
  - rewrite E in Hin. destruct Hin.
  - rewrite E in Hin. destruct Hin as [<-|[]].
    rewrite Hsend in Hr. cbn [answer_response] in Hr.
    exists (success_response message_id). repeat split; trivial.
    + intros Hid. cbn [success_response body].
      rewrite json_decode_dumps; [reflexivity|].
      unfold scalar_item. cbn [forallb fst snd]. now rewrite Hid.
    + rewrite success_response_body.
      destruct (forallb plain_char message_id) eqn:P; trivial.
      now rewrite encode_plain.
Qed.

Lemma provider_success_ok_witness :
  In (form_request alice_runtime alice_form alice_message)
    (calls_of alice_runtime (event_with_body alice_body))
  /\ send_email alice_runtime (form_request alice_runtime alice_form alice_message)
     = inr (lit "abc-123")
  /\ exists r,
       response_of alice_runtime (event_with_body alice_body) = inr r
       /\ statusCode r = 200%Z
       /\ headers r =
          Some [(lit "Access-Control-Allow-Origin", lit "*");
                (lit "Content-Type", lit "application/json")]
       /\ json_decode (body r) =
          Some (VDict [(lit "message", VStr (lit "Email sent successfully!"));
                       (lit "message_id", VStr (lit "abc-123"))])
       /\ body r = success_body (quoted (lit "abc-123")).
Proof.
  split; [left; reflexivity|]. split; [reflexivity|].
  destruct (provider_success_ok alice_runtime (event_with_body alice_body)
              (form_request alice_runtime alice_form alice_message)
              (message_id := lit "abc-123") (or_introl eq_refl) eq_refl)
    as (r & Hr & Hs & Hh & Hd & Hb).
  exists r. repeat split; trivial. now apply Hd.
Defined.






(** C5. On a JSON object in which some of the keys [name], [email],
    [subject] and [message] are missing, each missing field takes the value
    ["N/A"] on its own, and the handler goes on to render and to call the
    provider: the request is built from the defaulted fields and the
    response follows the provider's answer.  (A [message] that is present
    has to be a string for the rendering to go through.) *)
Theorem missing_fields_default (R : runtime) (d form : list (str * value))
    (s : str) :
  dict_get d (lit "body") = Some (VStr s) ->
  json_loads R s = Some (VDict form) ->
  (dict_get form (lit "message") = None
   \/ exists m, dict_get form (lit "message") = Some (VStr m)) ->
  (forall k, dict_get form k = None -> form_field form k = VStr (lit "N/A"))
  /\ exists m req,
       form_field form (lit "message") = VStr m
       /\ calls_of R (VDict d) = [req]
       /\ response_of R (VDict d) = inr (answer_response (send_email R req))
       /\ Text_Data req =
          TEXT_BODY (fmt R (form_field form (lit "name")))
            (fmt R (form_field form (lit "email")))
            (fmt R (form_field form (lit "subject"))) m
       /\ Html_Data req =
          HTML_BODY (fmt R (form_field form (lit "name")))
            (fmt R (form_field form (lit "email")))
            (fmt R (form_field form (lit "subject")))
            (str_replace (os_linesep R) (lit "<br>") m)
       /\ Subject_Data req =
          lit "New Contact: " ++ fmt R (form_field form (lit "subject"))
       /\ ReplyToAddresses req = [form_field form (lit "email")].
Proof.
  intros Hb Hs Hm. split; [apply form_field_absent|].
  assert (exists m, form_field form (lit "message") = VStr m) as [m E].
  { destruct Hm as [Hm|[m Hm]].
    - exists (lit "N/A"). now apply form_field_absent.
    - exists m. now apply form_field_present. }
  exists m, (form_request R form m). split; trivial.
  unfold calls_of, response_of. rewrite (handler_send R d Hb Hs E). cbn.
  rewrite provider_calls_answer_log. now repeat split.
Qed.

Lemma missing_fields_default_witness :
  dict_get [(lit "body", VStr (lit "{}"))] (lit "body") = Some (VStr (lit "{}"))
  /\ json_loads alice_runtime (lit "{}") = Some (VDict [])
  /\ exists m req,
       form_field [] (lit "message") = VStr m
       /\ calls_of alice_runtime (event_with_body (lit "{}")) = [req]
       /\ response_of alice_runtime (event_with_body (lit "{}"))
          = inr (success_response (lit "abc-123"))
       /\ Text_Data req =
          TEXT_BODY (lit "N/A") (lit "N/A") (lit "N/A") (lit "N/A")
       /\ Subject_Data req = lit "New Contact: N/A"
       /\ ReplyToAddresses req = [VStr (lit "N/A")].
Proof.
  split; [reflexivity|]. split; [reflexivity|].
  destruct (missing_fields_default alice_runtime
              [(lit "body", VStr (lit "{}"))] (form := []) (s := lit "{}")
              eq_refl eq_refl (or_introl eq_refl))
    as (_ & m & req & Hm & Hc & Hr & Ht & _ & Hsub & Hrep).
  exists m, req. injection Hm as <-.
  repeat split; trivial.
Defined.

(** C6. Whenever the handler calls the provider it calls it once, with the
    configured sender as source, the configured recipient as the only
    destination, the submitted [email] field as the only reply-to address,
    the subject ["New Contact: "] followed by the submitted subject (a
    string subject as it is, any other value as Python formats it), and
    the character set UTF-8 on the HTML body, the text body and the
    subject. *)
Theorem single_send_call (R : runtime) (event : value) (req : send_request) :
  In req (calls_of R event) ->
  calls_of R event = [req]
  /\ Source req = SENDER_EMAIL
  /\ ToAddresses req = [RECIPIENT_EMAIL]
  /\ Html_Charset req = lit "UTF-8"
  /\ Text_Charset req = lit "UTF-8"
  /\ Subject_Charset req = lit "UTF-8"
  /\ exists d form s,
       event = VDict d
       /\ dict_get d (lit "body") = Some (VStr s)
       /\ json_loads R s = Some (VDict form)
       /\ ReplyToAddresses req =
          [match dict_get form (lit "email") with
           | Some email => email
           | None => VStr (lit "N/A")
           end]
       /\ Subject_Data req =
          lit "New Contact: "
            ++ match dict_get form (lit "subject") with
               | Some (VStr subject) => subject
               | Some subject => py_format R subject
               | None => lit "N/A"
               end.
Proof.
  intros Hin.
  destruct (calls_of_cases R event)
    as [E|(d & form & s & m & Hev & Hb & Hs & _ & E & _)];
    rewrite E in Hin; [destruct Hin|].
  destruct Hin as [<-|[]]. rewrite E. repeat split.
  exists d, form, s. repeat split; trivial.
  unfold form_request, build_request, form_field, get_default.
  cbn [Subject_Data]. f_equal.
  now destruct (dict_get form (lit "subject")) as [[]|].
Qed.

Lemma single_send_call_witness :
  In (form_request alice_runtime alice_form alice_message)
    (calls_of alice_runtime (event_with_body alice_body))
  /\ calls_of alice_runtime (event_with_body alice_body)
     = [form_request alice_runtime alice_form alice_message]
  /\ Source (form_request alice_runtime alice_form alice_message)
     = lit "no-reply@yourdomain.com"
  /\ ToAddresses (form_request alice_runtime alice_form alice_message)
     = [lit "your-inbox@yourdomain.com"]
  /\ ReplyToAddresses (form_request alice_runtime alice_form alice_message)
     = [VStr (lit "alice@example.com")]
  /\ Subject_Data (form_request alice_runtime alice_form alice_message)
     = lit "New Contact: Hi"
  /\ Subject_Charset (form_request alice_runtime alice_form alice_message)
     = lit "UTF-8".
Proof.
  split; [left; reflexivity|].
  destruct (single_send_call alice_runtime (event_with_body alice_body)
              (form_request alice_runtime alice_form alice_message)
              (or_introl eq_refl))
    as (Hc & Hsrc & Hto & _ & _ & Hcs & d & form & s & Hev & Hb & Hs & Hrep & Hsub).
  injection Hev as <-. injection Hb as <-.
  assert (Hf : form = alice_form).
  { assert (E : json_loads alice_runtime alice_body = Some (VDict alice_form))
      by reflexivity.
    rewrite E in Hs. now injection Hs. }
  subst form. now repeat split.
Defined.

(** C7 (as the code has it). For the body
    [{"name":"Alice","email":"alice@example.com","subject":"Hi","message":"Hello\nWorld"}]
    and a provider returning [abc-123], the handler returns status 200 with
    the JSON body [{"message": "Email sent successfully!", "message_id": "abc-123"}],
    which decodes to the same object as the text without white space; the
    subject sent is [New Contact: Hi]; and the text body holds [Message:],
    a line break, the eight spaces of the template's indentation, [Hello],
    a line break and [World]. *)
Theorem alice_scenario (linesep : str) (format : value -> str) :
  exists r req,
    lambda_handler (alice_runtime_on linesep format) (event_with_body alice_body)
    = (inr r, [SendEmail req])
    /\ statusCode r = 200%Z
    /\ body r = success_body (quoted (lit "abc-123"))
    /\ Decoder.json_decode (body r) = Decoder.json_decode alice_reply_compact
    /\ Decoder.json_decode (body r) =
       Some (VDict [(lit "message", VStr (lit "Email sent successfully!"));
                    (lit "message_id", VStr (lit "abc-123"))])
    /\ occurs (lit "Message:" ++ nl ++ lit "        Hello" ++ nl ++ lit "World")
         (Text_Data req)
    /\ Subject_Data req = lit "New Contact: Hi".
Proof.
  exists (success_response (lit "abc-123")),
    (form_request (alice_runtime_on linesep format) alice_form alice_message).
  split.
  - unfold event_with_body.
    now rewrite (handler_send (alice_runtime_on linesep format)
                   [(lit "body", VStr alice_body)]
                   (form := alice_form) (s := alice_body) (m := alice_message)).
  - repeat split; try (vm_compute; reflexivity).
    apply contains_spec. vm_compute. reflexivity.
Qed.

(** C7, the claim as it is written: in the Alice scenario the text body
    does not hold [Message:], a line break, [Hello], a line break and
    [World] in a row, because the message line is indented. *)
Lemma alice_text_body_counterexample :
  exists req,
    calls_of alice_runtime (event_with_body alice_body) = [req]
    /\ ~ occurs (lit "Message:" ++ nl ++ lit "Hello" ++ nl ++ lit "World")
           (Text_Data req).
Proof.
  exists (form_request alice_runtime alice_form alice_message).
  split; [reflexivity|]. apply not_contains_spec. vm_compute. reflexivity.
Qed.

(** C8. For a form whose four fields are strings, the HTML body sent to the
    provider is the template with [name] and [email] inside the items of
    the list, [subject] after the [Subject:] label and, in the last
    paragraph, [message] with every occurrence of [os.linesep] replaced by
    [<br>]; the text body is the template with the four values as they
    are.  Nothing is escaped: the values occur in the bodies unchanged, and
    after the replacement no line separator is left in the message. *)
Theorem bodies_interpolate_raw (R : runtime) (d form : list (str * value))
    (s n e sub m : str) :
  dict_get d (lit "body") = Some (VStr s) ->
  json_loads R s = Some (VDict form) ->
  form_field form (lit "name") = VStr n ->
  form_field form (lit "email") = VStr e ->
  form_field form (lit "subject") = VStr sub ->
  form_field form (lit "message") = VStr m ->
  exists req,
    calls_of R (VDict d) = [req]
    /\ Html_Data req =
       HTML_BODY n e sub (str_replace (os_linesep R) (lit "<br>") m)
    /\ occurs
         (join_lines
            [lit "            <ul>";
             lit "                <li><strong>Name:</strong> " ++ n ++ lit "</li>";
             lit "                <li><strong>Email:</strong> " ++ e ++ lit "</li>";
             lit "            </ul>";
             lit "            <p><strong>Subject:</strong> " ++ sub ++ lit "</p>";
             lit "            <h3>Message:</h3>";
             lit "            <p>" ++ str_replace (os_linesep R) (lit "<br>") m
               ++ lit "</p>"])
         (Html_Data req)
    /\ (os_linesep R <> [] -> disjoint (os_linesep R) (lit "<br>") ->
        ~ occurs (os_linesep R) (str_replace (os_linesep R) (lit "<br>") m))
    /\ (os_linesep R <> [] -> ~ occurs (os_linesep R) m ->
        str_replace (os_linesep R) (lit "<br>") m = m)
    /\ Text_Data req = TEXT_BODY n e sub m
    /\ occurs
         (join_lines
            [lit "        Name: " ++ n;
             lit "        Email: " ++ e;
             lit "        Subject: " ++ sub;
             lit "        Message:";
             lit "        " ++ m])
         (Text_Data req).
Proof.
  intros Hb Hs Hn He Hsub Hm. exists (form_request R form m).
  split.
  { unfold calls_of. rewrite (handler_send R d Hb Hs Hm). cbn.
    now rewrite provider_calls_answer_log. }
  unfold form_request, build_request. cbn [Html_Data Text_Data].
  rewrite Hn, He, Hsub. cbn [fmt].
  split; [reflexivity|]. split.
  { unfold HTML_BODY.
    match goal with
    | |- occurs (join_lines ?blk) _ =>
        apply (@occurs_join_lines
                 [ []; lit "        <html>"; lit "        <head></head>";
                   lit "        <body>";
                   lit "            <p>You have received a new contact form submission:</p>" ]
                 blk
                 [ lit "        </body>"; lit "        </html>"; lit "        " ])
    end. discriminate. }
  split.
  { intros Hl Hd. apply str_replace_removes; trivial. discriminate. }
  split.
  { intros Hl Ha. now apply str_replace_absent. }
  split; [reflexivity|].
  unfold TEXT_BODY.
  match goal with
  | |- occurs (join_lines ?blk) _ =>
      apply (@occurs_join_lines
               [ []; lit "        New Contact Form Submission:" ]
               blk [ lit "        " ])
  end. discriminate.
Qed.

Lemma bodies_interpolate_raw_witness :
  dict_get [(lit "body", VStr eve_body)] (lit "body") = Some (VStr eve_body)
  /\ json_loads alice_runtime eve_body = Some (VDict eve_form)
  /\ exists req,
       calls_of alice_runtime (event_with_body eve_body) = [req]
       /\ occurs
            (lit "<li><strong>Name:</strong> <b>Eve</b></li>") (Html_Data req)
       /\ occurs (lit "<p>1 < 2<br>& so on</p>") (Html_Data req)
       /\ ~ occurs nl (str_replace nl (lit "<br>") eve_message)
       /\ occurs (lit "Subject: <i>Hi</i>") (Text_Data req).
Proof.
  split; [reflexivity|]. split; [reflexivity|].
  destruct (bodies_interpolate_raw alice_runtime
              [(lit "body", VStr eve_body)] (form := eve_form) (s := eve_body)
              (n := lit "<b>Eve</b>") (e := lit "eve@example.com")
              (sub := lit "<i>Hi</i>") (m := eve_message)
              eq_refl eq_refl eq_refl eq_refl eq_refl eq_refl)
    as (req & Hc & Hh & _ & Hrm & _ & Ht & _).
  exists req. split; [exact Hc|].
  rewrite Hh, Ht.
  split; [apply contains_spec; vm_compute; reflexivity|].
  split; [apply contains_spec; vm_compute; reflexivity|].
  split; [|apply contains_spec; vm_compute; reflexivity].
  apply Hrm; [discriminate|].
  intros c [<-|[]] H. vm_compute in H. intuition discriminate.
Defined.

(** C9. When the body is present and is not the encoding of a JSON object
    (it is no string, or does not decode, or decodes to a number, a string,
    a boolean, [null] or an array) the handler returns status 500 with the
    body [{"error": "Internal server error."}] and does not call the
    provider.  The empty string is such a body: it is not the missing-body
    case. *)
Theorem non_object_body_internal_error (R : runtime) (d : list (str * value))
    (raw : value) :
  dict_get d (lit "body") = Some raw ->
  raw <> VNone ->
  (forall s form, raw = VStr s -> json_loads R s <> Some (VDict form)) ->
  response_of R (VDict d) = inr internal_error_response
  /\ statusCode internal_error_response = 500%Z
  /\ body internal_error_response = error_body (lit "Internal server error.")
  /\ calls_of R (VDict d) = [].
Proof.
  intros Hb Hraw Hobj.
  assert (U : unusable R raw).
  { destruct raw as [| | | |s| |]; try exact I. cbn.
    destruct (json_loads R s) as [[| | | | | |form]|] eqn:E; try exact I.
    now destruct (Hobj s form eq_refl). }
  destruct (handler_unusable R d Hb Hraw U) as (e & H & _).
  unfold response_of, calls_of. rewrite H. now repeat split.
Qed.

Lemma non_object_body_internal_error_witness :
  dict_get [(lit "body", VStr [])] (lit "body") = Some (VStr [])
  /\ VStr [] <> VNone
  /\ json_loads alice_runtime [] = None
  /\ response_of alice_runtime (event_with_body []) = inr internal_error_response
  /\ statusCode internal_error_response = 500%Z
  /\ body internal_error_response = error_body (lit "Internal server error.")
  /\ calls_of alice_runtime (event_with_body []) = [].
Proof.
  split; [reflexivity|]. split; [discriminate|]. split; [reflexivity|].
  apply (non_object_body_internal_error alice_runtime
           [(lit "body", VStr [])] (raw := VStr [])).
  - reflexivity.
  - discriminate.
  - intros s form E. injection E as <-. discriminate.
Defined.

(** The kinds of body C9 names, each on the decoder of the scenarios. *)
Lemma non_object_bodies_rejected :
  Forall
    (fun text =>
       response_of alice_runtime (event_with_body text)
       = inr internal_error_response
       /\ calls_of alice_runtime (event_with_body text) = [])
    non_object_bodies.
Proof. repeat constructor. Qed.

(** C10. A key that is present with the value [null] keeps [None]: the
    default ["N/A"] is for absent keys only.  With [null] under [name],
    [email] or [subject] the request that is sent carries [None] (as the
    reply-to address, and formatted by Python in the subject and in the
    two bodies), not ["N/A"].  When [message] is present with [null], or
    with any value that is not a string, the replacement of the line
    separators raises, the handler returns status 500 with the body
    [{"error": "Internal server error."}], and the provider is not
    called. *)
Theorem null_field_not_defaulted (R : runtime) (d form : list (str * value))
    (s : str) :
  dict_get d (lit "body") = Some (VStr s) ->
  json_loads R s = Some (VDict form) ->
  (forall k, dict_get form k = Some VNone ->
             form_field form k = VNone
             /\ form_field form k <> VStr (lit "N/A"))
  /\ (forall m, form_field form (lit "message") = VStr m ->
        let shown := fun k =>
          match dict_get form k with
          | Some (VStr text) => text
          | Some v => py_format R v
          | None => lit "N/A"
          end in
        exists req,
          calls_of R (VDict d) = [req]
          /\ ReplyToAddresses req =
             [match dict_get form (lit "email") with
              | Some email => email
              | None => VStr (lit "N/A")
              end]
          /\ Subject_Data req = lit "New Contact: " ++ shown (lit "subject")
          /\ Text_Data req =
             TEXT_BODY (shown (lit "name")) (shown (lit "email"))
               (shown (lit "subject")) m
          /\ Html_Data req =
             HTML_BODY (shown (lit "name")) (shown (lit "email"))
               (shown (lit "subject"))
               (str_replace (os_linesep R) (lit "<br>") m))
  /\ (forall v, dict_get form (lit "message") = Some v -> is_str v = false ->
        outcome (try_block R (VDict d)) = inl AttributeError
        /\ response_of R (VDict d) = inr internal_error_response
        /\ calls_of R (VDict d) = [])
  /\ statusCode internal_error_response = 500%Z
  /\ body internal_error_response = error_body (lit "Internal server error.").
Proof.
  intros Hb Hs. split; [|split; [|split; [|now split]]].
  - intros k Hk. rewrite (form_field_present _ _ Hk). now split.
  - intros m Hm shown. exists (form_request R form m). split.
    { unfold calls_of. rewrite (handler_send R d Hb Hs Hm). cbn.
      now rewrite provider_calls_answer_log. }
    assert (F : forall k, fmt R (form_field form k) = shown k).
    { intros k. unfold shown, form_field, get_default.
      now destruct (dict_get form k) as [[]|]. }
    unfold form_request, build_request.
    cbn [ReplyToAddresses Subject_Data Text_Data Html_Data fmt].
    rewrite !F. now repeat split.
  - intros v Hv Hstr.
    assert (Hm : is_str (form_field form (lit "message")) = false)
      by now rewrite (form_field_present _ _ Hv).
    assert (T : try_block R (VDict d) = (inl AttributeError, [])).
    { rewrite (try_block_body R _ Hb) by discriminate.
      cbn [py_json_loads]. rewrite Hs, bind_ret.
      now apply process_form_bad_message. }
    unfold response_of, calls_of. rewrite (handler_raised _ _ T), T.
    now repeat split.
Qed.

Lemma null_field_not_defaulted_witness :
  (dict_get [(lit "body", VStr null_message_body)] (lit "body")
   = Some (VStr null_message_body)
   /\ json_loads alice_runtime null_message_body
      = Some (VDict [(lit "message", VNone)])
   /\ form_field [(lit "message", VNone)] (lit "message") = VNone
   /\ response_of alice_runtime (event_with_body null_message_body)
      = inr internal_error_response
   /\ calls_of alice_runtime (event_with_body null_message_body) = [])
  /\ (dict_get [(lit "body", VStr null_fields_body)] (lit "body")
      = Some (VStr null_fields_body)
      /\ json_loads alice_runtime null_fields_body
         = Some (VDict null_fields_form)
      /\ exists req,
           calls_of alice_runtime (event_with_body null_fields_body) = [req]
           /\ ReplyToAddresses req = [VNone]
           /\ Subject_Data req = lit "New Contact: None"
           /\ occurs (lit "Name: None") (Text_Data req)
           /\ occurs (lit "<li><strong>Email:</strong> None</li>")
                (Html_Data req)).
Proof.
  split.
  - split; [reflexivity|]. split; [reflexivity|].
    destruct (null_field_not_defaulted alice_runtime
                [(lit "body", VStr null_message_body)]
                (form := [(lit "message", VNone)]) (s := null_message_body)
                eq_refl eq_refl) as (Hk & _ & Hm & _).
    split; [apply (Hk (lit "message") eq_refl)|].
    destruct (Hm VNone eq_refl eq_refl) as (_ & Hr & Hc). now split.
  - split; [reflexivity|]. split; [reflexivity|].
    destruct (null_field_not_defaulted alice_runtime
                [(lit "body", VStr null_fields_body)]
                (form := null_fields_form) (s := null_fields_body)
                eq_refl eq_refl) as (_ & Hsend & _).
    destruct (Hsend (lit "hi") eq_refl) as (req & Hc & Hrep & Hsub & Ht & Hh).
    exists req. split; [exact Hc|].
    rewrite Hrep, Hsub, Ht, Hh.
    split; [reflexivity|]. split; [reflexivity|].
    split; apply contains_spec; vm_compute; reflexivity.
Defined.

(** * Further properties of the handler *)

Lemma handler_bad_message (R : runtime) (d form : list (str * value)) (s : str) :
  dict_get d (lit "body") = Some (VStr s) ->
  json_loads R s = Some (VDict form) ->
  is_str (form_field form (lit "message")) = false ->
  lambda_handler R (VDict d) =
  (inr internal_error_response, [PrintGeneralError AttributeError]).
Proof.
  intros Hb Hs Hm.
  assert (T : try_block R (VDict d) = (inl AttributeError, [])).
  { rewrite (try_block_body R _ Hb) by discriminate.
    cbn [py_json_loads]. rewrite Hs, bind_ret.
    now apply process_form_bad_message. }
  now rewrite (handler_raised _ _ T).
Qed.

(** X1. An event that is not a dictionary ([None], a list, a string, a
    number) has no [get]: the [try] statement raises [AttributeError], the
    handler answers 500 with the internal-error body and the provider is
    not called. *)
Theorem event_not_dictionary (R : runtime) (event : value) :
  is_dict event = false ->
  outcome (try_block R event) = inl AttributeError
  /\ response_of R event = inr internal_error_response
  /\ calls_of R event = [].
Proof.
  intros H. unfold response_of, calls_of.
  rewrite (handler_not_dict R _ H), (try_block_not_dict R _ H). now repeat split.
Qed.

Lemma event_not_dictionary_witness :
  is_dict (VList [VStr alice_body]) = false
  /\ outcome (try_block alice_runtime (VList [VStr alice_body]))
     = inl AttributeError
  /\ response_of alice_runtime (VList [VStr alice_body])
     = inr internal_error_response
  /\ calls_of alice_runtime (VList [VStr alice_body]) = [].
Proof.
  split; [reflexivity|].
  apply (event_not_dictionary alice_runtime (VList [VStr alice_body])).
  reflexivity.
Defined.

(** X2. When the provider is called and raises an exception that is not a
    [ClientError], the request has been handed over all the same; the
    handler prints the exception and answers 500 with the internal-error
    body, the one it also gives for a body that does not decode. *)
Theorem provider_other_failure (R : runtime) (event : value)
    (req : send_request) (e : exn) :
  In req (calls_of R event) ->
  send_email R req = inl e ->
  (forall message, e <> ClientError message) ->
  lambda_handler R event =
  (inr internal_error_response, [SendEmail req; PrintGeneralError e]).
Proof.
  intros Hin Hsend He.
  destruct (handler_cases R event)
    as [H|[(e' & H & _)|(d & form & s & m & _ & _ & _ & _ & H)]];
    unfold calls_of in Hin; rewrite H in *; cbn in Hin; try contradiction.
  rewrite provider_calls_answer_log in Hin. destruct Hin as [<-|[]].
  rewrite Hsend. destruct e; try reflexivity. now destruct (He message).
Qed.

Lemma provider_other_failure_witness :
  In (form_request (scenario_runtime (inl BotoCoreError)) alice_form alice_message)
    (calls_of (scenario_runtime (inl BotoCoreError)) (event_with_body alice_body))
  /\ lambda_handler (scenario_runtime (inl BotoCoreError))
       (event_with_body alice_body)
     = (inr internal_error_response,
        [SendEmail (form_request (scenario_runtime (inl BotoCoreError))
                      alice_form alice_message);
         PrintGeneralError BotoCoreError]).
Proof.
  split; [left; reflexivity|].
  apply (provider_other_failure (scenario_runtime (inl BotoCoreError))
           (event_with_body alice_body)
           (form_request (scenario_runtime (inl BotoCoreError))
              alice_form alice_message) (e := BotoCoreError)).
  - left; reflexivity.
  - reflexivity.
  - discriminate.
Defined.

(** X3. On a decoded object the provider is called exactly when the
    [message] field, after the default, is a string.  The types of [name],
    [email] and [subject] never stop the request: they are formatted into
    the bodies and the subject, and [email] goes into the reply-to list as
    the value it is. *)
Theorem dispatch_iff_message_string (R : runtime) (d form : list (str * value))
    (s : str) :
  dict_get d (lit "body") = Some (VStr s) ->
  json_loads R s = Some (VDict form) ->
  calls_of R (VDict d) =
  match form_field form (lit "message") with
  | VStr m =>
      [build_request R (form_field form (lit "name"))
         (form_field form (lit "email")) (form_field form (lit "subject"))
         (str_replace (os_linesep R) (lit "<br>") m) (VStr m)]
  | _ => []
  end.
Proof.
  intros Hb Hs. unfold calls_of.
  destruct (form_field form (lit "message")) as [| | | |m| |] eqn:Hm;
    try (now rewrite (handler_bad_message R d Hb Hs); [|rewrite Hm]).
  rewrite (handler_send R d Hb Hs Hm). cbn.
  now rewrite provider_calls_answer_log.
Qed.

Lemma dispatch_iff_message_string_witness :
  dict_get [(lit "body", VStr mixed_body)] (lit "body") = Some (VStr mixed_body)
  /\ json_loads alice_runtime mixed_body = Some (VDict mixed_form)
  /\ exists req,
       calls_of alice_runtime (event_with_body mixed_body) = [req]
       /\ ReplyToAddresses req = [VNone]
       /\ Subject_Data req = lit "New Contact: N/A"
       /\ occurs (lit "Name: 42") (Text_Data req)
       /\ occurs (lit "Email: None") (Text_Data req).
Proof.
  split; [reflexivity|]. split; [reflexivity|].
  eexists. split.
  - apply (dispatch_iff_message_string alice_runtime
             [(lit "body", VStr mixed_body)] (form := mixed_form)
             (s := mixed_body) eq_refl eq_refl).
  - repeat split; try reflexivity; apply contains_spec; vm_compute; reflexivity.
Defined.

Lemma provider_calls_app (t u : list effect) :
  provider_calls (t ++ u) = provider_calls t ++ provider_calls u.
Proof.
  induction t as [|[] t IH]; cbn; trivial. now rewrite IH.
Qed.

(** X4. The handler answers 200 only after the provider has been called
    once and has returned an identifier, and the body then carries that
    identifier: success is never reported for a message that was not
    handed over. *)
Theorem success_only_after_provider_answer (R : runtime) (event : value)
    (r : http_response) :
  response_of R event = inr r ->
  statusCode r = 200%Z ->
  exists req message_id,
    calls_of R event = [req]
    /\ send_email R req = inr message_id
    /\ r = success_response message_id.
Proof.
  intros Hr H200. unfold response_of, calls_of in *.
  destruct (handler_cases R event)
    as [H|[(e & H & _)|(d & form & s & m & _ & _ & _ & _ & H)]];
    rewrite H in *; cbn in Hr; injection Hr as <-; try discriminate.
  exists (form_request R form m). cbn. rewrite provider_calls_answer_log.
  destruct (send_email R (form_request R form m)) as [[]|message_id];
    try discriminate.
  now exists message_id.
Qed.

Lemma success_only_after_provider_answer_witness :
  response_of alice_runtime (event_with_body alice_body)
  = inr (success_response (lit "abc-123"))
  /\ statusCode (success_response (lit "abc-123")) = 200%Z
  /\ exists req message_id,
       calls_of alice_runtime (event_with_body alice_body) = [req]
       /\ send_email alice_runtime req = inr message_id
       /\ success_response (lit "abc-123") = success_response message_id.
Proof.
  split; [reflexivity|]. split; [reflexivity|].
  apply (success_only_after_provider_answer alice_runtime
           (event_with_body alice_body) (r := success_response (lit "abc-123")));
    reflexivity.
Defined.

Lemma answer_response_status (a : exn + str) :
  statusCode (answer_response a) = 200%Z
  \/ statusCode (answer_response a) = 500%Z.
Proof. destruct a as [[]|]; cbn; auto. Qed.

(** With a body that is present the status is 500 or 200. *)
Lemma body_present_status (R : runtime) (d : list (str * value)) (raw : value) :
  dict_get d (lit "body") = Some raw -> raw <> VNone ->
  exists r,
    response_of R (VDict d) = inr r
    /\ (statusCode r = 200%Z \/ statusCode r = 500%Z).
Proof.
  intros Hb Hraw. unfold response_of.
  destruct (unusable_dec R raw) as [U|(s & form & m & -> & Hs & Hm)].
  - destruct (handler_unusable R d Hb Hraw U) as (e & H & _).
    rewrite H. exists internal_error_response. split; [reflexivity | now right].
  - rewrite (handler_send R d Hb Hs Hm). eexists. split; [reflexivity|].
    apply answer_response_status.
Qed.

(** X5. The handler answers 400 exactly when the event is a dictionary
    whose [body] is absent or [None]; an empty, malformed or rejected body
    never gives 400. *)
Theorem bad_request_iff_missing_body (R : runtime) (event : value) :
  (exists r, response_of R event = inr r /\ statusCode r = 400%Z)
  <-> (exists d, event = VDict d /\ get_default d (lit "body") VNone = VNone).
Proof.
  split.
  - intros (r & Hr & H400).
    destruct event as [| | | | | |d];
      try (unfold response_of in Hr;
           rewrite handler_not_dict in Hr by reflexivity;
           injection Hr as <-; discriminate).
    exists d. split; trivial. unfold get_default.
    destruct (dict_get d (lit "body")) as [raw|] eqn:Hb; trivial.
    destruct raw; trivial;
      (destruct (body_present_status R d Hb) as (r' & Hr' & Hs);
       [discriminate|]; rewrite Hr in Hr'; injection Hr' as <-;
       destruct Hs as [Hs|Hs]; rewrite Hs in H400; discriminate).
  - intros (d & -> & G). exists no_body_response. unfold response_of.
    now rewrite (handler_no_body R d G).
Qed.

(** X6. Every response but the 400 one carries the two CORS headers: the
    headers are missing exactly when the status is 400. *)
Theorem cors_headers_unless_bad_request (R : runtime) (event : value) :
  exists r,
    response_of R event = inr r
    /\ headers r =
       if Z.eqb (statusCode r) 400
       then None
       else Some [(lit "Access-Control-Allow-Origin", lit "*");
                  (lit "Content-Type", lit "application/json")].
Proof.
  unfold response_of.
  destruct (handler_cases R event)
    as [H|[(e & H & _)|(d & form & s & m & _ & _ & _ & _ & H)]];
    rewrite H; eexists; (split; [reflexivity|]); try reflexivity.
  now destruct (send_email R (form_request R form m)) as [[]|].
Qed.


(** X8. Only the keys [name], [email], [subject] and [message] of the form
    are read: two bodies whose objects agree on these four keys give the
    same run, request and response included. *)
Theorem unknown_form_keys_ignored (R : runtime)
    (d d' form form' : list (str * value)) (s s' : str) :
  dict_get d (lit "body") = Some (VStr s) ->
  dict_get d' (lit "body") = Some (VStr s') ->
  json_loads R s = Some (VDict form) ->
  json_loads R s' = Some (VDict form') ->
  (forall k,
     In k [lit "name"; lit "email"; lit "subject"; lit "message"] ->
     dict_get form k = dict_get form' k) ->
  lambda_handler R (VDict d) = lambda_handler R (VDict d').
Proof.
  intros Hb Hb' Hs Hs' Hk.
  assert (F : forall k,
             In k [lit "name"; lit "email"; lit "subject"; lit "message"] ->
             form_field form k = form_field form' k).
  { intros k Hin. unfold form_field, get_default. now rewrite (Hk k Hin). }
  assert (Fn := F (lit "name") (or_introl eq_refl)).
  assert (Fe := F (lit "email") (or_intror (or_introl eq_refl))).
  assert (Fs := F (lit "subject") (or_intror (or_intror (or_introl eq_refl)))).
  assert (Fm := F (lit "message")
                  (or_intror (or_intror (or_intror (or_introl eq_refl))))).
  destruct (form_field form (lit "message")) as [| | | |m| |] eqn:Hm;
    try (rewrite (handler_bad_message R d Hb Hs),
                 (handler_bad_message R d' Hb' Hs');
         [reflexivity | now rewrite <- Fm | now rewrite Hm]).
  rewrite (handler_send R d Hb Hs Hm), (handler_send R d' Hb' Hs' (eq_sym Fm)).
  unfold form_request. now rewrite Fn, Fe, Fs.
Qed.

Lemma unknown_form_keys_ignored_witness :
  json_loads alice_runtime alice_body = Some (VDict alice_form)
  /\ json_loads alice_runtime alice_body_with_phone
     = Some (VDict ((lit "phone", VStr (lit "555-0100")) :: alice_form))
  /\ lambda_handler alice_runtime (event_with_body alice_body)
     = lambda_handler alice_runtime (event_with_body alice_body_with_phone).
Proof.
  split; [reflexivity|]. split; [reflexivity|].
  apply (unknown_form_keys_ignored alice_runtime
           [(lit "body", VStr alice_body)]
           [(lit "body", VStr alice_body_with_phone)]
           (form := alice_form)
           (form' := (lit "phone", VStr (lit "555-0100")) :: alice_form)
           (s := alice_body) (s' := alice_body_with_phone));
    try reflexivity.
  intros k [<-|[<-|[<-|[<-|[]]]]]; reflexivity.
Defined.

(** X9. Of the event only the [body] key is read: two events with the same
    [body] give the same run.  The method of the request and the flag
    [isBase64Encoded] change nothing. *)
Theorem other_event_keys_ignored (R : runtime) (d d' : list (str * value)) :
  dict_get d (lit "body") = dict_get d' (lit "body") ->
  lambda_handler R (VDict d) = lambda_handler R (VDict d').
Proof.
  intros H.
  unfold lambda_handler, try_block, py_get, py_getitem, get_default.
  now rewrite H.
Qed.

Lemma other_event_keys_ignored_witness :
  dict_get [(lit "httpMethod", VStr (lit "GET"));
            (lit "isBase64Encoded", VBool true);
            (lit "body", VStr alice_body)] (lit "body")
  = dict_get [(lit "body", VStr alice_body)] (lit "body")
  /\ lambda_handler alice_runtime (gateway_event alice_body)
     = lambda_handler alice_runtime (event_with_body alice_body).
Proof.
  split; [reflexivity|].
  apply (other_event_keys_ignored alice_runtime
           [(lit "httpMethod", VStr (lit "GET"));
            (lit "isBase64Encoded", VBool true);
            (lit "body", VStr alice_body)]
           [(lit "body", VStr alice_body)]).
  reflexivity.
Defined.

(** X10. The body of every response is a JSON text that decodes to an
    object.  For a failure the object holds the key [error]; for status
    200 it holds [message] and, under [message_id], exactly the identifier
    the provider returned, whatever characters [json.dumps] had to escape
    in it, provided the identifiers of the provider hold no surrogate code
    points. *)
Theorem response_body_decodes (R : runtime) (event : value) :
  (forall req message_id,
     send_email R req = inr message_id -> forallb scalar message_id = true) ->
  exists r,
    response_of R event = inr r
    /\ ((statusCode r <> 200%Z
         /\ exists text,
              json_decode (body r) = Some (VDict [(lit "error", VStr text)]))
        \/ (statusCode r = 200%Z
            /\ exists req message_id,
                 calls_of R event = [req]
                 /\ send_email R req = inr message_id
                 /\ json_decode (body r) =
                    Some (VDict [(lit "message",
                                  VStr (lit "Email sent successfully!"));
                                 (lit "message_id", VStr message_id)]))).
Proof.
  intros Hid. unfold response_of, calls_of.
  assert (E : forall r text,
             body r = json_dumps [(lit "error", text)] ->
             forallb scalar text = true ->
             statusCode r <> 200%Z ->
             (statusCode r <> 200%Z
              /\ exists text,
                   json_decode (body r) = Some (VDict [(lit "error", VStr text)]))).
  { intros r text Hb Ht Hs. split; trivial. exists text.
    rewrite Hb, json_decode_dumps; [reflexivity|].
    unfold scalar_item. cbn [forallb fst snd]. now rewrite Ht. }
  destruct (handler_cases R event)
    as [H|[(e & H & _)|(d & form & s & m & _ & _ & _ & _ & H)]];
    rewrite H; unfold outcome, trace; cbn [fst snd provider_calls].
  - exists no_body_response. split; trivial. left.
    now apply (E _ (lit "No form data submitted.")).
  - exists internal_error_response. split; trivial. left.
    now apply (E _ (lit "Internal server error.")).
  - eexists. split; [reflexivity|].
    rewrite provider_calls_answer_log.
    destruct (send_email R (form_request R form m)) as [[]|message_id] eqn:A;
      try (left; now apply (E _ (lit "Internal server error.")));
      try (left; now apply (E _ (lit "Failed to send email. Check Lambda logs."))).
    right. split; [reflexivity|].
    exists (form_request R form m), message_id. repeat split; trivial.
    cbn [answer_response success_response body].
    rewrite json_decode_dumps; [reflexivity|].
    unfold scalar_item. cbn [forallb fst snd]. now rewrite (Hid _ _ A).
Qed.

Lemma response_body_decodes_witness :
  (forall req message_id,
     send_email alice_runtime req = inr message_id ->
     forallb scalar message_id = true)
  /\ exists r,
       response_of alice_runtime (event_with_body alice_body) = inr r
       /\ ((statusCode r <> 200%Z
            /\ exists text,
                 json_decode (body r) = Some (VDict [(lit "error", VStr text)]))
           \/ (statusCode r = 200%Z
               /\ exists req message_id,
                    calls_of alice_runtime (event_with_body alice_body) = [req]
                    /\ send_email alice_runtime req = inr message_id
                    /\ json_decode (body r) =
                       Some (VDict [(lit "message",
                                     VStr (lit "Email sent successfully!"));
                                    (lit "message_id", VStr message_id)]))).
Proof.
  assert (H : forall req message_id,
             send_email alice_runtime req = inr message_id ->
             forallb scalar message_id = true).
  { intros req message_id E. injection E as <-. reflexivity. }
  split; [exact H|].
  apply (response_body_decodes alice_runtime (event_with_body alice_body) H).
Defined.

(** ** A separator of one character *)

Lemma str_replace_single (sep : N) (new s : str) :
  str_replace [sep] new s = flat_map (replace_char sep new) s.
Proof.
  induction s as [|x s IH]; [reflexivity|].
  cbn [flat_map]. unfold replace_char at 1.
  destruct (N.eqb_spec x sep) as [->|Hx].
  - rewrite str_replace_match; [|discriminate|].
    + cbn [List.length skipn]. now rewrite IH.
    + cbn [startswith]. now rewrite N.eqb_refl.
  - rewrite str_replace_copy; [|discriminate|].
    + now rewrite IH.
    + cbn [startswith]. rewrite N.eqb_sym.
      now rewrite (proj2 (N.eqb_neq _ _) Hx).
Qed.

(** X11. Where [os.linesep] is the line feed alone, as on the Linux hosts
    of Lambda, the HTML body holds the message with each line feed turned
    into [<br>] and every other character kept: the carriage return of a
    line break typed in a browser stays in the HTML. *)
Theorem posix_replaces_line_feeds_only (R : runtime) (d form : list (str * value))
    (s m : str) :
  os_linesep R = nl ->
  dict_get d (lit "body") = Some (VStr s) ->
  json_loads R s = Some (VDict form) ->
  form_field form (lit "message") = VStr m ->
  exists req,
    calls_of R (VDict d) = [req]
    /\ Html_Data req =
       HTML_BODY (fmt R (form_field form (lit "name")))
         (fmt R (form_field form (lit "email")))
         (fmt R (form_field form (lit "subject")))
         (flat_map (replace_char LF (lit "<br>")) m)
    /\ (forall x, x <> LF ->
          In x m -> In x (flat_map (replace_char LF (lit "<br>")) m))
    /\ ~ In LF (flat_map (replace_char LF (lit "<br>")) m).
Proof.
  intros Hl Hb Hs Hm. exists (form_request R form m). split.
  { unfold calls_of. rewrite (handler_send R d Hb Hs Hm). cbn.
    now rewrite provider_calls_answer_log. }
  split.
  { unfold form_request, build_request. cbn [Html_Data].
    rewrite Hl. unfold nl. now rewrite str_replace_single. }
  split.
  - intros x Hx Hin. apply in_flat_map. exists x. split; trivial.
    unfold replace_char. rewrite (proj2 (N.eqb_neq _ _) Hx). now left.
  - intros Hin. apply in_flat_map in Hin as (x & _ & Hin).
    unfold replace_char in Hin. destruct (N.eqb_spec x LF) as [E|Hx].
    + cbn in Hin. intuition discriminate.
    + destruct Hin as [E|[]]. congruence.
Qed.

Lemma posix_replaces_line_feeds_only_witness :
  os_linesep alice_runtime = nl
  /\ json_loads alice_runtime crlf_body
     = Some (VDict [(lit "message", VStr crlf_message)])
  /\ exists req,
       calls_of alice_runtime (event_with_body crlf_body) = [req]
       /\ occurs (lit "<p>a" ++ [CR] ++ lit "<br>b</p>") (Html_Data req).
Proof.
  split; [reflexivity|]. split; [reflexivity|].
  destruct (posix_replaces_line_feeds_only alice_runtime
              [(lit "body", VStr crlf_body)]
              (form := [(lit "message", VStr crlf_message)])
              (s := crlf_body) (m := crlf_message)
              eq_refl eq_refl eq_refl eq_refl) as (req & Hc & Hh & _).
  exists req. split; [exact Hc|]. rewrite Hh.
  apply contains_spec. vm_compute. reflexivity.
Defined.
